(** * Resideo direct API controller: token lifecycle and request executor

    A shallow embedding of [resideo_direct_api.py] (class
    [ResideoAPIController]) and the properties of its token lifecycle,
    request executor and thermostat operations.

    Modelling conventions.
    - Python values that come out of JSON documents are the inductive
      [json]; Python's [None] is [JNull].  A [dict] is an association
      list in insertion order, looked up by first match.
    - [str] is Rocq's [string], read as ASCII text: the case mappings
      below touch ASCII letters only.
    - The controller object ([self]) and the outside world (network,
      wall clock, files) are threaded explicitly through a state monad
      whose results are either a returned value or a raised exception;
      assignments to [self] made before an exception is raised survive
      it, as they do in Python.
    - The result dictionaries [{"success": True, "data": d}] and
      [{"error": msg}] are the inductive [result]; each f-string message
      is a constructor of [message] carrying the interpolated values, so
      no textual rendering of Python objects is needed.
    - Output written with [print] is not modelled.

    The first part embeds the libraries the class leans on ([Py],
    [DateTime], [World]), the class itself ([Resideo]) and, with object
    identity, the copy-and-edit block of [set_temperature] ([Store]).  The
    second part holds the properties, one section per claim C1..C10. *)

From Stdlib Require Import ZArith List String Ascii Bool Lia.
Import ListNotations.
Local Open Scope string_scope.
Local Open Scope Z_scope.

Set Implicit Arguments.
Set Warnings "-register-all".

(** ** Python values *)

Module Py.

(** A Python float: a finite dyadic [m * 2^e], an infinity or a NaN. *)
Inductive pyfloat :=
| FFinite (m e : Z)
| FInf (negative : bool)
| FNan.

Inductive json :=
| JNull
| JBool (b : bool)
| JInt (n : Z)
| JFloat (f : pyfloat)
| JStr (s : string)
| JArr (l : list json)
| JObj (d : list (string * json)).

Definition dict := list (string * json).

(** Exceptions that the code under study can meet, over the type [R] of
    HTTP responses.  [RequestException] stands for the members of the
    [requests.exceptions.RequestException] family raised while a request is
    sent and carries their [response] attribute; [HTTPError] is the member
    raised by [raise_for_status].  [JSONDecodeError] is what
    [response.json()] raises: always a [ValueError]; in [requests] 2.27 and
    later it is a [RequestException] too, which the flag records. *)
Inductive exn (R : Type) :=
| RequestException (response : option R) (text : string)
| HTTPError (response : R)
| JSONDecodeError (is_request_exception : bool)
| ValueError
| TypeError
| AttributeError
| KeyError
| IndexError
| OverflowError
| OSError.

Arguments JSONDecodeError {R}.
Arguments ValueError {R}.
Arguments TypeError {R}.
Arguments AttributeError {R}.
Arguments KeyError {R}.
Arguments IndexError {R}.
Arguments OverflowError {R}.
Arguments OSError {R}.

(** [bool(v)] *)
Definition truthy (v : json) : bool :=
  match v with
  | JNull => false
  | JBool b => b
  | JInt n => negb (n =? 0)
  | JFloat (FFinite m _) => negb (m =? 0)
  | JFloat _ => true
  | JStr s => negb (String.eqb s "")
  | JArr l => match l with [] => false | _ => true end
  | JObj d => match d with [] => false | _ => true end
  end.

(** [d.get(k)] as an option ([None] when [k not in d]) and
    [d.get(k, default)]. *)
Fixpoint lookup (k : string) (d : dict) : option json :=
  match d with
  | [] => None
  | (k', v) :: d' => if String.eqb k k' then Some v else lookup k d'
  end.

Definition get_default (k : string) (default : json) (d : dict) : json :=
  match lookup k d with Some v => v | None => default end.

Definition dict_get (k : string) (d : dict) : json := get_default k JNull d.

(** [d[k] = v]: rebinds [k] where it stands, or appends it. *)
Fixpoint setitem (k : string) (v : json) (d : dict) : dict :=
  match d with
  | [] => [(k, v)]
  | (k', v') :: d' =>
      if String.eqb k k' then (k', v) :: d' else (k', v') :: setitem k v d'
  end.

(** [v == s] for a string [s]: only an equal string compares equal. *)
Definition eq_str (v : json) (s : string) : bool :=
  match v with
  | JStr s' => String.eqb s' s
  | _ => false
  end.

(** *** Case mapping on ASCII text *)

Definition is_upper (c : ascii) : bool :=
  let n := nat_of_ascii c in (65 <=? n)%nat && (n <=? 90)%nat.

Definition is_lower (c : ascii) : bool :=
  let n := nat_of_ascii c in (97 <=? n)%nat && (n <=? 122)%nat.

Definition is_alpha (c : ascii) : bool := is_upper c || is_lower c.

Definition lower_char (c : ascii) : ascii :=
  if is_upper c then ascii_of_nat (nat_of_ascii c + 32) else c.

Definition upper_char (c : ascii) : ascii :=
  if is_lower c then ascii_of_nat (nat_of_ascii c - 32) else c.

(** [s.lower()], [s.upper()] *)
Fixpoint lower (s : string) : string :=
  match s with
  | EmptyString => EmptyString
  | String c s' => String (lower_char c) (lower s')
  end.

Fixpoint upper (s : string) : string :=
  match s with
  | EmptyString => EmptyString
  | String c s' => String (upper_char c) (upper s')
  end.

(** [s.title()]: a letter that follows a non-letter (or starts the string)
    is upper-cased, every other letter lower-cased. *)
Fixpoint title_from (previous_is_cased : bool) (s : string) : string :=
  match s with
  | EmptyString => EmptyString
  | String c s' =>
      String (if is_alpha c
              then (if previous_is_cased then lower_char c else upper_char c)
              else c)
             (title_from (is_alpha c) s')
  end.

Definition title (s : string) : string := title_from false s.

(** [x in l] for a list of strings *)
Definition in_list (x : string) (l : list string) : bool :=
  existsb (String.eqb x) l.

(** *** [int(v)] *)

(** The blanks [int] strips from a text: the ASCII white space, codes 9
    to 13 and 32, and of the codes above 127 the next-line and no-break
    space characters, 133 and 160.  The separators 28 to 31 are not among
    them. *)
Definition is_space (c : ascii) : bool :=
  let n := nat_of_ascii c in
  ((9 <=? n)%nat && (n <=? 13)%nat) || (n =? 32)%nat
  || (n =? 133)%nat || (n =? 160)%nat.

Fixpoint lstrip (s : string) : string :=
  match s with
  | String c s' => if is_space c then lstrip s' else s
  | EmptyString => EmptyString
  end.

Definition digit_of (c : ascii) : option Z :=
  let n := nat_of_ascii c in
  if (48 <=? n)%nat && (n <=? 57)%nat then Some (Z.of_nat n - 48) else None.

(** Digits with single underscores between them, then optional trailing
    blanks.  [acc] is the value read so far and [after_digit] tells whether
    the previous character was a digit. *)
Fixpoint int_digits (acc : Z) (after_digit : bool) (s : string) : option Z :=
  match s with
  | EmptyString => if after_digit then Some acc else None
  | String c s' =>
      match digit_of c with
      | Some d => int_digits (10 * acc + d) true s'
      | None =>
          if after_digit then
            if Ascii.eqb c "_"%char then
              match s' with
              | String c' _ =>
                  match digit_of c' with
                  | Some _ => int_digits acc false s'
                  | None => None
                  end
              | EmptyString => None
              end
            else if is_space c then
              match lstrip s' with EmptyString => Some acc | _ => None end
            else None
          else None
      end
  end.

(** The number of decimal digits in a text. *)
Fixpoint count_digits (s : string) : nat :=
  match s with
  | EmptyString => O
  | String c s' =>
      match digit_of c with
      | Some _ => S (count_digits s')
      | None => count_digits s'
      end
  end.

(** [sys.get_int_max_str_digits()], as the interpreter starts: a text of
    more digits is refused with [ValueError]. *)
Definition int_max_str_digits : nat := 4300.

(** [int(s)] for a string: blanks around, an optional sign, decimal digits
    with single underscores between them, at most [int_max_str_digits]
    digits. *)
Definition int_of_string (s : string) : option Z :=
  if (count_digits s <=? int_max_str_digits)%nat then
    match lstrip s with
    | String "-"%char s' => option_map Z.opp (int_digits 0 false s')
    | String "+"%char s' => int_digits 0 false s'
    | s' => int_digits 0 false s'
    end
  else None.

Definition int {R} (v : json) : exn R + Z :=
  match v with
  | JNull => inl TypeError
  | JBool b => inr (if b then 1 else 0)
  | JInt n => inr n
  | JFloat (FFinite m e) =>
      inr (if 0 <=? e then m * 2 ^ e else Z.quot m (2 ^ (- e)))
  | JFloat (FInf _) => inl OverflowError
  | JFloat FNan => inl ValueError
  | JStr s =>
      match int_of_string s with Some n => inr n | None => inl ValueError end
  | JArr _ => inl TypeError
  | JObj _ => inl TypeError
  end.

(** Iterating over a value, as [for x in v] and [list.extend(v)] do: the
    items of a list, the keys of a dict, the characters of a string. *)
Fixpoint chars (s : string) : list json :=
  match s with
  | EmptyString => []
  | String c s' => JStr (String c EmptyString) :: chars s'
  end.

Definition iter {R} (v : json) : exn R + list json :=
  match v with
  | JArr l => inr l
  | JObj d => inr (map (fun kv => JStr (fst kv)) d)
  | JStr s => inr (chars s)
  | _ => inl TypeError
  end.

End Py.


(** ** Naive [datetime] values and [timedelta]

    A [datetime] is the record of its civil fields, as the interpreter
    keeps it; a [timedelta] is a signed number of microseconds.  Ordering is
    field by field, arithmetic goes through the proleptic Gregorian ordinal,
    and results outside years 1..9999 raise [OverflowError]. *)

Module DateTime.

Record datetime := mk {
  year : Z; month : Z; day : Z;
  hour : Z; minute : Z; second : Z; microsecond : Z
}.

Definition timedelta := Z.

Definition is_leap (y : Z) : bool :=
  (y mod 4 =? 0) && (negb (y mod 100 =? 0) || (y mod 400 =? 0)).

Definition days_in_month (y m : Z) : Z :=
  if m =? 2 then (if is_leap y then 29 else 28)
  else if (m =? 4) || (m =? 6) || (m =? 9) || (m =? 11) then 30
  else 31.

Definition days_before_year (y : Z) : Z :=
  let p := y - 1 in p * 365 + p / 4 - p / 100 + p / 400.

Definition days_before_month_table : list Z :=
  [0; 31; 59; 90; 120; 151; 181; 212; 243; 273; 304; 334].

Definition days_before_month (y m : Z) : Z :=
  nth (Z.to_nat (m - 1)) days_before_month_table 0
  + (if (2 <? m) && is_leap y then 1 else 0).

Definition ymd2ord (y m d : Z) : Z :=
  days_before_year y + days_before_month y m + d.

Definition DI400Y := days_before_year 401.
Definition DI100Y := days_before_year 101.
Definition DI4Y := days_before_year 5.
Definition MAXORDINAL := ymd2ord 9999 12 31.

(** Ordinal to (year, month, day) *)
Definition ord2ymd (ordinal : Z) : Z * Z * Z :=
  let n := ordinal - 1 in
  let n400 := n / DI400Y in let n := n mod DI400Y in
  let n100 := n / DI100Y in let n := n mod DI100Y in
  let n4 := n / DI4Y in let n := n mod DI4Y in
  let n1 := n / 365 in let n := n mod 365 in
  let y := n400 * 400 + 1 + n100 * 100 + n4 * 4 + n1 in
  if (n1 =? 4) || (n100 =? 4) then (y - 1, 12, 31)
  else
    let leapyear := (n1 =? 3) && (negb (n4 =? 24) || (n100 =? 3)) in
    let m := Z.shiftr (n + 50) 5 in
    let preceding :=
      nth (Z.to_nat (m - 1)) days_before_month_table 0
      + (if (2 <? m) && leapyear then 1 else 0) in
    if n <? preceding then
      let m' := m - 1 in
      let preceding' :=
        preceding - (days_in_month 1 m'
                     + (if (m' =? 2) && leapyear then 1 else 0)) in
      (y, m', n - preceding' + 1)
    else (y, m, n - preceding + 1).

Definition US_PER_DAY := 86400 * 1000000.

Definition to_micros (t : datetime) : Z :=
  (ymd2ord (year t) (month t) (day t) - 1) * US_PER_DAY
  + ((hour t * 60 + minute t) * 60 + second t) * 1000000
  + microsecond t.

Definition of_micros (us : Z) : datetime :=
  let '(y, m, d) := ord2ymd (us / US_PER_DAY + 1) in
  let r := us mod US_PER_DAY in
  let secs := r / 1000000 in
  mk y m d (secs / 3600) (secs / 60 mod 60) (secs mod 60) (r mod 1000000).

Definition MAX_MICROS := MAXORDINAL * US_PER_DAY - 1.

(** [timedelta(seconds=n)], [timedelta(minutes=n)] *)
Definition timedelta_seconds {R} (n : Z) : Py.exn R + timedelta :=
  if Z.abs (n / 86400) <=? 999999999 then inr (n * 1000000)
  else inl Py.OverflowError.

Definition timedelta_minutes {R} (n : Z) : Py.exn R + timedelta :=
  timedelta_seconds (n * 60).

(** [t + d] and [t - d] *)
Definition add {R} (t : datetime) (d : timedelta) : Py.exn R + datetime :=
  let us := to_micros t + d in
  if (0 <=? us) && (us <=? MAX_MICROS) then inr (of_micros us)
  else inl Py.OverflowError.

Definition sub {R} (t : datetime) (d : timedelta) : Py.exn R + datetime :=
  add t (- d).

(** Ordering of naive datetimes: lexicographic on the fields. *)
Definition key (t : datetime) : list Z :=
  [year t; month t; day t; hour t; minute t; second t; microsecond t].

Fixpoint lex_lt (a b : list Z) : bool :=
  match a, b with
  | x :: a', y :: b' => (x <? y) || ((x =? y) && lex_lt a' b')
  | [], _ :: _ => true
  | _, [] => false
  end.

Definition lt (a b : datetime) : bool := lex_lt (key a) (key b).
Definition ge (a b : datetime) : bool := negb (lt a b).

Definition valid (t : datetime) : bool :=
  (1 <=? year t) && (year t <=? 9999) &&
  (1 <=? month t) && (month t <=? 12) &&
  (1 <=? day t) && (day t <=? days_in_month (year t) (month t)) &&
  (0 <=? hour t) && (hour t <? 24) &&
  (0 <=? minute t) && (minute t <? 60) &&
  (0 <=? second t) && (second t <? 60) &&
  (0 <=? microsecond t) && (microsecond t <? 1000000).

(** *** ISO 8601 text *)

Definition digit_char (d : Z) : ascii := ascii_of_nat (48 + Z.to_nat d).

(** [n] as [w] decimal digits, zero padded. *)
Fixpoint pad (w : nat) (n : Z) : string :=
  match w with
  | O => EmptyString
  | S w' => String (digit_char ((n / 10 ^ Z.of_nat w') mod 10)) (pad w' n)
  end.

(** [t.isoformat()]: [YYYY-MM-DDTHH:MM:SS], followed by [.ffffff] when the
    microsecond field is not zero. *)
Definition isoformat (t : datetime) : string :=
  pad 4 (year t) ++ String "-" (
  pad 2 (month t) ++ String "-" (
  pad 2 (day t) ++ String "T" (
  pad 2 (hour t) ++ String ":" (
  pad 2 (minute t) ++ String ":" (
  pad 2 (second t) ++
  (if microsecond t =? 0 then EmptyString
   else String "." (pad 6 (microsecond t)))))))).

(** Reads exactly [w] decimal digits. *)
Fixpoint read_digits (w : nat) (acc : Z) (s : string) : option (Z * string) :=
  match w with
  | O => Some (acc, s)
  | S w' =>
      match s with
      | String c s' =>
          match Py.digit_of c with
          | Some d => read_digits w' (10 * acc + d) s'
          | None => None
          end
      | EmptyString => None
      end
  end.

Definition valid_time (h mi s : Z) : bool :=
  (h <? 24) && (mi <? 60) && (s <? 60).

(** The time part: [HH], [HH:MM], [HH:MM:SS], [HH:MM:SS.fff] or
    [HH:MM:SS.ffffff]. *)
Definition parse_time (y m d : Z) (s : string) : option datetime :=
  let finish h mi sec us :=
    if valid_time h mi sec then Some (mk y m d h mi sec us) else None in
  match read_digits 2 0 s with
  | Some (h, EmptyString) => finish h 0 0 0
  | Some (h, String ":" s1) =>
      match read_digits 2 0 s1 with
      | Some (mi, EmptyString) => finish h mi 0 0
      | Some (mi, String ":" s2) =>
          match read_digits 2 0 s2 with
          | Some (sec, EmptyString) => finish h mi sec 0
          | Some (sec, String "." s3) =>
              match read_digits 6 0 s3 with
              | Some (us, EmptyString) => finish h mi sec us
              | Some (_, String _ _) => None
              | None =>
                  match read_digits 3 0 s3 with
                  | Some (ms, EmptyString) => finish h mi sec (ms * 1000)
                  | _ => None
                  end
              end
          | _ => None
          end
      | _ => None
      end
  | _ => None
  end.

(** [datetime.fromisoformat(s)] on the texts that every interpreter from
    3.7 on reads as a naive datetime: [YYYY-MM-DD], optionally followed by
    one separator character and a time in one of the forms above.  These
    are the texts [isoformat] writes, and a result [Some t] is the value
    Python gives.  [None] stands for the [ValueError] raised on a text that
    is no timestamp.  It is also the answer here on the texts left out of
    the model, which Python reads: those with a UTC offset, which give an
    aware datetime, and the further ISO 8601 forms accepted from 3.11 on.
    On those the model says nothing of what the class does. *)
Definition fromisoformat (s : string) : option datetime :=
  match read_digits 4 0 s with
  | Some (y, String "-" s1) =>
      match read_digits 2 0 s1 with
      | Some (m, String "-" s2) =>
          match read_digits 2 0 s2 with
          | Some (d, rest) =>
              if (1 <=? y) && (1 <=? m) && (m <=? 12) &&
                 (1 <=? d) && (d <=? days_in_month y m)
              then
                match rest with
                | EmptyString => Some (mk y m d 0 0 0 0)
                | String _ s3 => parse_time y m d s3
                end
              else None
          | None => None
          end
      | _ => None
      end
  | _ => None
  end.

End DateTime.


(** ** [urllib.parse]: percent-encoding

    A [str] is taken here as the bytes of its UTF-8 encoding, which is what
    [quote] works on. *)

Module Urllib.

(** The characters [quote] never encodes: letters, digits and [_.-~]. *)
Definition always_safe (c : ascii) : bool :=
  Py.is_upper c || Py.is_lower c
  || (let n := nat_of_ascii c in (48 <=? n)%nat && (n <=? 57)%nat)
  || Ascii.eqb c "_" || Ascii.eqb c "." || Ascii.eqb c "-" || Ascii.eqb c "~".

Definition hex_digit (n : nat) : ascii :=
  nth n (list_ascii_of_string "0123456789ABCDEF") "0"%char.

(** ['%{:02X}'.format(byte)] *)
Definition percent (c : ascii) : string :=
  let n := nat_of_ascii c in
  String "%" (String (hex_digit (n / 16))
                     (String (hex_digit (n mod 16)) EmptyString)).

(** What [quote_plus] makes of one character: itself when it is always
    safe, [+] for a space, its percent-encoding otherwise. *)
Definition quote_char (c : ascii) : string :=
  if always_safe c then String c EmptyString
  else if Ascii.eqb c " " then "+"
  else percent c.

(** [quote_plus(s)] *)
Fixpoint quote_plus (s : string) : string :=
  match s with
  | EmptyString => EmptyString
  | String c s' => quote_char c ++ quote_plus s'
  end.

(** [urlencode(query)] for a dict of strings: [k=v] pairs, both quoted,
    joined by [&]. *)
Fixpoint urlencode (query : list (string * string)) : string :=
  match query with
  | [] => EmptyString
  | (k, v) :: rest =>
      quote_plus k ++ "=" ++ quote_plus v
      ++ match rest with
         | [] => EmptyString
         | _ :: _ => "&" ++ urlencode rest
         end
  end.

End Urllib.

(** ** The outside world: HTTP, clock and files *)

Module World.

Import Py.

(** What [requests] hands back: [json_body] is the value of
    [response.json()], [None] when decoding the body raises. *)
Record response := mkResponse {
  status_code : Z;
  content : string;
  text : string;
  json_body : option json
}.

Definition exn := Py.exn response.

(** A request either raises a [RequestException] or yields a response. *)
Inductive http_outcome :=
| Fault (carried : option response) (description : string)
| Responds (r : response).

(** The three endpoint templates of the class:
    ['/locations'],
    [f'/devices/thermostats/{device_id}?locationId={location_id}'] and
    [f'/devices/thermostats/{device_id}/fan?locationId={location_id}']. *)
Inductive endpoint :=
| Locations
| Thermostat (device_id : string) (location_id : json)
| Fan (device_id : string) (location_id : json).

(** ['?' in url]: the base URL has no query, the two device templates
    carry [?locationId=]. *)
Definition has_query (ep : endpoint) : bool :=
  match ep with
  | Locations => false
  | Thermostat _ _ => true
  | Fan _ _ => true
  end.

Inductive request :=
| TokenRequest (client_id client_secret : string) (form : dict)
| ApiRequest (verb : string) (ep : endpoint) (separator : string)
             (apikey : string) (bearer : json) (body : option json).

Inductive file :=
| NoFile
| NotJson
| Doc (v : json).

Record world := mkWorld {
  net : nat -> http_outcome;       (* outcome of the n-th request *)
  sent : list request;             (* requests made, latest first *)
  clock : nat -> DateTime.datetime;(* n-th reading of [datetime.now()] *)
  ticks : nat;
  files : string -> file;
  writable : string -> bool;
  json_error_is_request_exception : bool
}.

Definition send (rq : request) (w : world) : http_outcome * world :=
  (net w (List.length (sent w)),
   mkWorld (net w) (rq :: sent w) (clock w) (ticks w) (files w) (writable w)
           (json_error_is_request_exception w)).

Definition read_clock (w : world) : DateTime.datetime * world :=
  (clock w (ticks w),
   mkWorld (net w) (sent w) (clock w) (S (ticks w)) (files w) (writable w)
           (json_error_is_request_exception w)).

Definition write_file (name : string) (v : json) (w : world) : world :=
  mkWorld (net w) (sent w) (clock w) (ticks w)
          (fun n => if String.eqb n name then Doc v else files w n)
          (writable w) (json_error_is_request_exception w).

End World.

(** ** The controller *)

Module Resideo.

Import Py World.

Record controller := mkController {
  client_id : string;
  client_secret : string;
  redirect_uri : string;
  access_token : json;
  refresh_token : json;
  token_expires : option DateTime.datetime
}.

(** [__init__] *)
Definition init (client_id client_secret : string) (redirect_uri : option string)
  : controller :=
  mkController client_id client_secret
    (match redirect_uri with
     | Some u => if String.eqb u "" then "http://localhost:8080/callback" else u
     | None => "http://localhost:8080/callback"
     end)
    JNull JNull None.

(** The f-string messages of the [{"error": ...}] dictionaries. *)
Inductive message :=
| FailedExchange (e : exn)        (* "Failed to exchange code for token: {e}" *)
| NoRefreshToken                  (* "No refresh token available" *)
| FailedRefresh (e : exn)         (* "Failed to refresh token: {e}" *)
| NoValidToken                    (* "No valid access token available" *)
| UnsupportedMethod (method : string) (* "Unsupported HTTP method: {method}" *)
| ApiError (error_data : json)    (* "API Error: {error_data}" *)
| HttpStatus (status : Z) (body : string) (* "HTTP {status_code}: {text}" *)
| RequestFailed (e : exn)         (* "Request failed: {e}" *)
| NoLocationInformation           (* "Could not get location information" *)
| NoThermostatStatus              (* "Could not get current thermostat status" *)
| ThermostatNotFound (device_id : string) (* "Thermostat {device_id} not found" *)
| InvalidFanMode (fan_mode : string) (valid_modes : list string).
    (* "Invalid fan mode '{fan_mode}'. Valid modes: {valid_modes}" *)

(** The dictionaries the operations return. *)
Inductive result :=
| Success (data : json)               (* {"success": True, "data": data} *)
| SuccessMessage (message : string)   (* {"success": True, "message": ...} *)
| Error (error : message).            (* {"error": error} *)

(** [r.get('success')] and [r.get('success', False)], as a truth value *)
Definition get_success (r : result) : bool :=
  match r with
  | Success _ => true
  | SuccessMessage _ => true
  | Error _ => false
  end.

(** *** Exceptions without state: [E] *)

Definition E (A : Type) : Type := exn + A.

Definition ebind {A B} (m : E A) (k : A -> E B) : E B :=
  match m with
  | inl e => inl e
  | inr a => k a
  end.

Notation "x <-- m ;; k" := (ebind m (fun x => k))
  (at level 61, m at next level, right associativity).

(** [v.get(k)], [v.get(k, default)]: only a dict has [get]. *)
Definition py_get_default (v : json) (k : string) (default : json) : E json :=
  match v with
  | JObj d => inr (get_default k default d)
  | _ => inl AttributeError
  end.

Definition py_get (v : json) (k : string) : E json := py_get_default v k JNull.

(** [r['data']] *)
Definition data_of (r : result) : E json :=
  match r with
  | Success d => inr d
  | _ => inl KeyError
  end.

(** [v[0]] *)
Definition first_item (v : json) : E json :=
  match v with
  | JArr (x :: _) => inr x
  | JArr [] => inl IndexError
  | JStr (String c _) => inr (JStr (String c EmptyString))
  | JStr EmptyString => inl IndexError
  | JObj _ => inl KeyError
  | _ => inl TypeError
  end.

(** *** The state monad of the controller *)

Definition M (A : Type) : Type :=
  controller -> world -> E A * controller * world.

Definition ret {A} (a : A) : M A := fun c w => (inr a, c, w).

Definition raise {A} (e : exn) : M A := fun c w => (inl e, c, w).

Definition bind {A B} (m : M A) (k : A -> M B) : M B :=
  fun c w =>
    match m c w with
    | (inl e, c', w') => (inl e, c', w')
    | (inr a, c', w') => k a c' w'
    end.

Notation "x <- m ;; k" := (bind m (fun x => k))
  (at level 61, m at next level, right associativity).
Notation "m ;;; k" := (bind m (fun _ => k))
  (at level 61, right associativity).

Definition lift {A} (m : E A) : M A := fun c w => (m, c, w).

(** [try: body except <catches> as e: handler e] *)
Definition try_except {A} (body : M A) (catches : exn -> bool)
  (handler : exn -> M A) : M A :=
  fun c w =>
    match body c w with
    | (inl e, c', w') => if catches e then handler e c' w' else (inl e, c', w')
    | r => r
    end.

Definition is_request_exception (e : exn) : bool :=
  match e with
  | RequestException _ _ => true
  | HTTPError _ => true
  | JSONDecodeError b => b
  | _ => false
  end.

Definition is_value_error (e : exn) : bool :=
  match e with
  | JSONDecodeError _ => true
  | ValueError => true
  | _ => false
  end.

Definition any_exception (e : exn) : bool := true.

Definition self : M controller := fun c w => (inr c, c, w).

Definition set_access_token (v : json) : M unit :=
  fun c w => (inr tt,
    mkController (client_id c) (client_secret c) (redirect_uri c)
                 v (refresh_token c) (token_expires c), w).

Definition set_refresh_token (v : json) : M unit :=
  fun c w => (inr tt,
    mkController (client_id c) (client_secret c) (redirect_uri c)
                 (access_token c) v (token_expires c), w).

Definition set_token_expires (t : DateTime.datetime) : M unit :=
  fun c w => (inr tt,
    mkController (client_id c) (client_secret c) (redirect_uri c)
                 (access_token c) (refresh_token c) (Some t), w).

Definition datetime_now : M DateTime.datetime :=
  fun c w => let (t, w') := read_clock w in (inr t, c, w').

(** [requests.get/post/put/delete(...)] *)
Definition http (rq : request) : M response :=
  fun c w =>
    match send rq w with
    | (Fault r d, w') => (inl (RequestException r d), c, w')
    | (Responds r, w') => (inr r, c, w')
    end.

(** [response.raise_for_status()] *)
Definition raise_for_status (r : response) : M unit :=
  if (400 <=? status_code r) && (status_code r <? 600)
  then raise (HTTPError r) else ret tt.

(** [response.json()] *)
Definition response_json (r : response) : M json :=
  fun c w =>
    match json_body r with
    | Some v => (inr v, c, w)
    | None => (inl (JSONDecodeError (json_error_is_request_exception w)), c, w)
    end.

(** *** Token acquisition and refresh *)

(** The assignments that follow [token_data = response.json()] in
    [exchange_code_for_token]. *)
Definition store_exchanged (token_data : json) : M unit :=
  a <- lift (py_get token_data "access_token") ;;
  set_access_token a ;;;
  r <- lift (py_get token_data "refresh_token") ;;
  set_refresh_token r ;;;
  e <- lift (py_get_default token_data "expires_in" (JInt 3600)) ;;
  expires_in <- lift (Py.int e) ;;
  now <- datetime_now ;;
  d <- lift (DateTime.timedelta_seconds expires_in) ;;
  t <- lift (DateTime.add now d) ;;
  set_token_expires t.

Definition exchange_code_for_token (authorization_code : string) : M result :=
  c <- self ;;
  let data := [("grant_type", JStr "authorization_code");
               ("code", JStr authorization_code);
               ("redirect_uri", JStr (redirect_uri c))] in
  try_except
    (response <- http (TokenRequest (client_id c) (client_secret c) data) ;;
     raise_for_status response ;;;
     token_data <- response_json response ;;
     store_exchanged token_data ;;;
     ret (Success token_data))
    is_request_exception
    (fun e => ret (Error (FailedExchange e))).

(** The assignments that follow [token_data = response.json()] in
    [refresh_access_token]; ['refresh_token' in token_data] is reached only
    when [token_data] is a dict. *)
Definition store_refreshed (token_data : json) : M unit :=
  a <- lift (py_get token_data "access_token") ;;
  set_access_token a ;;;
  (match token_data with
   | JObj d =>
       match lookup "refresh_token" d with
       | Some r => set_refresh_token r
       | None => ret tt
       end
   | _ => ret tt
   end) ;;;
  e <- lift (py_get_default token_data "expires_in" (JInt 3600)) ;;
  expires_in <- lift (Py.int e) ;;
  now <- datetime_now ;;
  d <- lift (DateTime.timedelta_seconds expires_in) ;;
  t <- lift (DateTime.add now d) ;;
  set_token_expires t.

Definition refresh_access_token : M result :=
  c <- self ;;
  if negb (truthy (refresh_token c)) then ret (Error NoRefreshToken)
  else
    let data := [("grant_type", JStr "refresh_token");
                 ("refresh_token", refresh_token c)] in
    try_except
      (response <- http (TokenRequest (client_id c) (client_secret c) data) ;;
       raise_for_status response ;;;
       token_data <- response_json response ;;
       store_refreshed token_data ;;;
       ret (SuccessMessage "Token refreshed successfully"))
      is_request_exception
      (fun e => ret (Error (FailedRefresh e))).

Definition _ensure_valid_token : M bool :=
  c <- self ;;
  if negb (truthy (access_token c)) then ret false
  else
    match token_expires c with
    | Some expires =>
        now <- datetime_now ;;
        margin <- lift (DateTime.timedelta_minutes 5) ;;
        limit <- lift (DateTime.sub expires margin) ;;
        if DateTime.ge now limit then
          result <- refresh_access_token ;;
          ret (get_success result)
        else ret true
    | None => ret true
    end.

(** *** The request executor *)

Definition _make_api_request (method : string) (ep : endpoint)
  (data : option json) : M result :=
  ok <- _ensure_valid_token ;;
  if negb ok then ret (Error NoValidToken)
  else
    c <- self ;;
    let separator := if has_query ep then "&" else "?" in
    let rq verb body :=
      ApiRequest verb ep separator (client_id c) (access_token c) body in
    let after (response : response) : M result :=
      raise_for_status response ;;;
      if (existsb (Z.eqb (status_code response)) [200; 201; 202; 204])
         && (Nat.eqb (String.length (content response)) 0)
      then ret (Success (JObj []))
      else
        try_except
          (v <- response_json response ;; ret (Success v))
          is_value_error
          (fun _ =>
             ret (Success (JObj [("response_text", JStr (text response))])))
    in
    try_except
      (if String.eqb (upper method) "GET" then
         response <- http (rq "GET" None) ;; after response
       else if String.eqb (upper method) "POST" then
         response <- http (rq "POST" data) ;; after response
       else if String.eqb (upper method) "PUT" then
         response <- http (rq "PUT" data) ;; after response
       else if String.eqb (upper method) "DELETE" then
         response <- http (rq "DELETE" None) ;; after response
       else ret (Error (UnsupportedMethod method)))
      is_request_exception
      (fun e =>
         match e with
         | RequestException (Some r) _ | HTTPError r =>
             try_except
               (error_data <- response_json r ;;
                ret (Error (ApiError error_data)))
               any_exception
               (fun _ => ret (Error (HttpStatus (status_code r) (text r))))
         | _ => ret (Error (RequestFailed e))
         end).

(** *** Domain operations *)

Definition get_locations : M result :=
  _make_api_request "GET" Locations None.

(** The loop of [get_all_devices]. *)
Fixpoint collect_devices (locations : list json) (all_devices : list json)
  : E (list json) :=
  match locations with
  | [] => inr all_devices
  | location :: rest =>
      devices <-- py_get_default location "devices" (JArr []) ;;
      items <-- iter devices ;;
      collect_devices rest (all_devices ++ items)
  end.

Definition get_all_devices : M result :=
  locations_result <- get_locations ;;
  if negb (get_success locations_result) then ret locations_result
  else
    locations <- lift (data_of locations_result) ;;
    items <- lift (iter locations) ;;
    all_devices <- lift (collect_devices items []) ;;
    ret (Success (JArr all_devices)).

(** The list comprehension of [get_thermostats]. *)
Fixpoint filter_thermostats (devices : list json) : E (list json) :=
  match devices with
  | [] => inr []
  | device :: rest =>
      t <-- py_get device "deviceType" ;;
      keep <-- (if eq_str t "Thermostat" then inr true
                else c <-- py_get device "deviceClass" ;;
                     inr (eq_str c "Thermostat")) ;;
      kept <-- filter_thermostats rest ;;
      inr (if keep then device :: kept else kept)
  end.

Definition get_thermostats : M (list json) :=
  devices_response <- get_all_devices ;;
  if negb (get_success devices_response) then ret []
  else
    devices <- lift (data_of devices_response) ;;
    items <- lift (iter devices) ;;
    lift (filter_thermostats items).

Definition get_thermostat_status (device_id : string) (location_id : json)
  : M result :=
  _make_api_request "GET" (Thermostat device_id location_id) None.

Definition set_thermostat_settings (device_id : string) (location_id : json)
  (settings : json) : M result :=
  _make_api_request "POST" (Thermostat device_id location_id) (Some settings).

(** [location_id is None] *)
Definition is_none (v : json) : bool :=
  match v with JNull => true | _ => false end.

(** The block shared by [set_temperature] and [set_fan_mode]:
    "Get location_id if not provided", then the rest of the body [k]. *)
Definition with_location (location_id : json) (k : json -> M result)
  : M result :=
  if is_none location_id then
    locations_result <- get_locations ;;
    if negb (get_success locations_result)
    then ret (Error NoLocationInformation)
    else
      data <- lift (data_of locations_result) ;;
      if negb (truthy data) then ret (Error NoLocationInformation)
      else
        first <- lift (first_item data) ;;
        found <- lift (py_get first "locationID") ;;
        k found
  else k location_id.

(** The inner and outer loops that look for the thermostat;
    [target] is [target_thermostat]. *)
Fixpoint scan_devices (device_id : string) (devices : list json)
  (target : json) : E json :=
  match devices with
  | [] => inr target
  | device :: rest =>
      v <-- py_get device "deviceID" ;;
      if eq_str v device_id then inr device
      else scan_devices device_id rest target
  end.

Fixpoint scan_locations (device_id : string) (locations : list json)
  (target : json) : E json :=
  match locations with
  | [] => inr target
  | location :: rest =>
      devices <-- py_get_default location "devices" (JArr []) ;;
      items <-- iter devices ;;
      target' <-- scan_devices device_id items target ;;
      if truthy target' then inr target'
      else scan_locations device_id rest target'
  end.

(** [d[k] = v] guarded by [if v is not None] *)
Definition set_if_given (k : string) (v : json) (d : dict) : dict :=
  if is_none v then d else setitem k v d.

(** The request body: the copied [changeableValues] with the edits of
    [set_temperature] applied.  A list can be copied but not indexed by a
    string; anything else has no [copy]. *)
Definition changed_values (changeable_values : json) (mode : string)
  (heat_setpoint cool_setpoint : json) : E json :=
  match changeable_values with
  | JObj d =>
      inr (JObj
        (setitem "thermostatSetpointStatus" (JStr "PermanentHold")
          (set_if_given "coolSetpoint" cool_setpoint
            (set_if_given "heatSetpoint" heat_setpoint
              (setitem "mode" (JStr mode) d)))))
  | JArr _ => inl TypeError
  | _ => inl AttributeError
  end.

Definition set_temperature (device_id mode : string)
  (heat_setpoint cool_setpoint location_id : json) : M result :=
  with_location location_id (fun location_id =>
    locations_result <- get_locations ;;
    if negb (get_success locations_result)
    then ret (Error NoThermostatStatus)
    else
      data <- lift (data_of locations_result) ;;
      locations <- lift (iter data) ;;
      target_thermostat <- lift (scan_locations device_id locations JNull) ;;
      if negb (truthy target_thermostat)
      then ret (Error (ThermostatNotFound device_id))
      else
        values <- lift (py_get_default target_thermostat "changeableValues"
                                       (JObj [])) ;;
        current_changeable_values <-
          lift (changed_values values mode heat_setpoint cool_setpoint) ;;
        set_thermostat_settings device_id location_id
                                current_changeable_values).

Definition valid_modes : list string := ["auto"; "on"; "circulate"].

Definition set_fan_mode (device_id fan_mode : string) (location_id : json)
  : M result :=
  if negb (in_list (lower fan_mode) valid_modes)
  then ret (Error (InvalidFanMode fan_mode valid_modes))
  else
    with_location location_id (fun location_id =>
      _make_api_request "POST" (Fan device_id location_id)
        (Some (JObj [("mode", JStr (title fan_mode))]))).

(** *** Persistence *)

(** [with open(filename, 'w') as f: json.dump(token_data, f, indent=2)] *)
Definition dump_file (filename : string) (token_data : json) : M unit :=
  fun c w =>
    if writable w filename then (inr tt, c, write_file filename token_data w)
    else (inl OSError, c, w).

(** [with open(filename, 'r') as f: token_data = json.load(f)] *)
Definition load_file (filename : string) : M json :=
  fun c w =>
    match files w filename with
    | NoFile => (inl OSError, c, w)
    | NotJson => (inl ValueError, c, w)
    | Doc v => (inr v, c, w)
    end.

Definition save_tokens (filename : string) : M bool :=
  try_except
    (c <- self ;;
     let token_data := JObj
       [("access_token", access_token c);
        ("refresh_token", refresh_token c);
        ("expires", match token_expires c with
                    | Some t => JStr (DateTime.isoformat t)
                    | None => JNull
                    end);
        ("client_id", JStr (client_id c))] in
     dump_file filename token_data ;;;
     ret true)
    any_exception
    (fun _ => ret false).

(** [datetime.fromisoformat(v)] *)
Definition py_fromisoformat (v : json) : E DateTime.datetime :=
  match v with
  | JStr s =>
      match DateTime.fromisoformat s with
      | Some t => inr t
      | None => inl ValueError
      end
  | _ => inl TypeError
  end.

Definition load_tokens (filename : string) : M bool :=
  try_except
    (token_data <- load_file filename ;;
     a <- lift (py_get token_data "access_token") ;;
     set_access_token a ;;;
     r <- lift (py_get token_data "refresh_token") ;;
     set_refresh_token r ;;;
     e <- lift (py_get token_data "expires") ;;
     (if truthy e then
        t <- lift (py_fromisoformat e) ;;
        set_token_expires t
      else ret tt) ;;;
     ret true)
    any_exception
    (fun _ => ret false).

(** *** The consent URL *)

Definition auth_base_url : string := "https://api.honeywell.com/oauth2".
Definition api_base_url : string := "https://api.honeywell.com/v2".

Definition get_authorization_url (c : controller) : string :=
  let params := [("response_type", "code");
                 ("client_id", client_id c);
                 ("redirect_uri", redirect_uri c);
                 ("scope", "")] in
  auth_base_url ++ "/authorize?" ++ Urllib.urlencode params.

End Resideo.

(** ** The settings bag as a shared object

    [set_temperature] reads the device's [changeableValues] dictionary out
    of the fetched locations, copies it and assigns into the copy.  Here
    the dictionaries are objects in a store, addressed by reference, so
    that the copy and the original are told apart. *)

Module Store.

Import Py.








End Store.

(** * Properties *)

Unset Implicit Arguments.

(** ** The library models at work *)

Example int_examples :
  Py.int_of_string " 3600 " = Some 3600 /\
  Py.int_of_string "-1_000" = Some (-1000) /\
  Py.int_of_string "soon" = None /\
  Py.int_of_string "" = None /\
  Py.int_of_string "1__0" = None /\
  Py.int_of_string "12_" = None.
Proof. repeat split; reflexivity. Qed.

Example case_examples :
  Py.lower "SPIN" = "spin" /\ Py.title "auto" = "Auto" /\
  Py.title "CIRCULATE" = "Circulate" /\ Py.upper "post" = "POST" /\
  Py.title "heat pump-2x" = "Heat Pump-2X".
Proof. repeat split; reflexivity. Qed.

Example datetime_examples :
  DateTime.MAXORDINAL = 3652059 /\
  DateTime.ord2ymd 3652059 = (9999, 12, 31) /\
  DateTime.ord2ymd 1 = (1, 1, 1) /\
  DateTime.ord2ymd (DateTime.ymd2ord 2024 2 29) = (2024, 2, 29) /\
  DateTime.ord2ymd (DateTime.ymd2ord 2023 12 31) = (2023, 12, 31) /\
  DateTime.ord2ymd (DateTime.ymd2ord 2000 3 1) = (2000, 3, 1) /\
  DateTime.ord2ymd (DateTime.ymd2ord 1900 2 28 + 1) = (1900, 3, 1) /\
  DateTime.ymd2ord 1970 1 1 = 719163.
Proof. repeat split; reflexivity. Qed.

Example isoformat_examples :
  let t := DateTime.mk 2025 3 9 7 5 0 1500 in
  DateTime.isoformat t = "2025-03-09T07:05:00.001500" /\
  DateTime.fromisoformat "2025-03-09T07:05:00.001500" = Some t /\
  DateTime.fromisoformat "2025-03-09 07:05:00.250" =
    Some (DateTime.mk 2025 3 9 7 5 0 250000) /\
  DateTime.fromisoformat "2025-03-09" = Some (DateTime.mk 2025 3 9 0 0 0 0) /\
  DateTime.fromisoformat "2025-02-30" = None /\
  DateTime.fromisoformat "not-a-date" = None /\
  DateTime.add (R := unit) (DateTime.mk 2024 2 28 23 59 59 0) 1000000 =
    inr (DateTime.mk 2024 2 29 0 0 0 0) /\
  DateTime.sub (R := unit) (DateTime.mk 2024 3 1 0 2 0 0) 300000000 =
    inr (DateTime.mk 2024 2 29 23 57 0 0) /\
  DateTime.add (R := unit) (DateTime.mk 9999 12 31 23 30 0 0) 3600000000 =
    inl Py.OverflowError.
Proof. repeat split; vm_compute; reflexivity. Qed.

(** ** ISO 8601 text round trip *)

Module DateTimeFacts.

Import Py DateTime.

Lemma digit_of_digit_char d : 0 <= d < 10 -> digit_of (digit_char d) = Some d.
Proof.
  intros H.
  assert (E : d = 0 \/ d = 1 \/ d = 2 \/ d = 3 \/ d = 4 \/ d = 5 \/ d = 6 \/
              d = 7 \/ d = 8 \/ d = 9) by lia.
  repeat (destruct E as [-> | E]; [reflexivity |]). subst; reflexivity.
Qed.

Lemma read_digits_pad w : forall n acc rest,
  read_digits w acc (pad w n ++ rest)
  = Some (acc * 10 ^ Z.of_nat w + n mod 10 ^ Z.of_nat w, rest).
Proof.
  induction w as [| w IH]; intros n acc rest.
  - simpl. rewrite Z.mod_1_r. f_equal. f_equal. lia.
  - cbn [pad read_digits append].
    rewrite digit_of_digit_char by (apply Z.mod_pos_bound; lia).
    rewrite IH. f_equal. f_equal.
    rewrite Nat2Z.inj_succ, Z.pow_succ_r by lia.
    rewrite (Z.mul_comm 10 (10 ^ Z.of_nat w)).
    rewrite Z.rem_mul_r by lia.
    lia.
Qed.

Lemma read_digits_pad_exact w n rest :
  0 <= n < 10 ^ Z.of_nat w ->
  read_digits w 0 (pad w n ++ rest) = Some (n, rest).
Proof.
  intros H. rewrite read_digits_pad, Z.mod_small by exact H. reflexivity.
Qed.

Lemma append_empty_r s : s ++ "" = s.
Proof. induction s as [| c s IH]; simpl; [| rewrite IH]; reflexivity. Qed.

Lemma days_in_month_le y m : days_in_month y m <= 31.
Proof.
  unfold days_in_month.
  repeat match goal with |- context [if ?b then _ else _] => destruct b end;
    lia.
Qed.

Ltac change_pow :=
  match goal with
  | |- context [10 ^ Z.of_nat ?w] =>
      let v := eval vm_compute in (10 ^ Z.of_nat w) in
      change (10 ^ Z.of_nat w) with v
  end.

(** [datetime.fromisoformat] undoes [isoformat] on every well-formed
    datetime, microseconds included. *)
Lemma fromisoformat_isoformat t :
  valid t = true -> fromisoformat (isoformat t) = Some t.
Proof.
  destruct t as [y m d h mi s us]. unfold valid; simpl.
  rewrite !andb_true_iff, !Z.leb_le, !Z.ltb_lt.
  intros H. decompose [and] H; clear H.
  unfold fromisoformat, isoformat; simpl year; simpl month; simpl day;
    simpl hour; simpl minute; simpl second; simpl microsecond.
  pose proof (days_in_month_le y m) as Hd.
  rewrite read_digits_pad_exact by (change_pow; lia).
  rewrite read_digits_pad_exact by (change_pow; lia).
  rewrite read_digits_pad_exact by (change_pow; lia).
  replace ((1 <=? y) && (1 <=? m) && (m <=? 12) && (1 <=? d)
           && (d <=? days_in_month y m)) with true
    by (symmetry; rewrite !andb_true_iff, !Z.leb_le; lia).
  unfold parse_time.
  rewrite read_digits_pad_exact by (change_pow; lia).
  rewrite read_digits_pad_exact by (change_pow; lia).
  assert (V : valid_time h mi s = true)
    by (unfold valid_time; rewrite !andb_true_iff, !Z.ltb_lt; lia).
  destruct (us =? 0) eqn:U.
  - apply Z.eqb_eq in U; subst us.
    rewrite read_digits_pad_exact by (change_pow; lia).
    rewrite V. reflexivity.
  - rewrite read_digits_pad_exact by (change_pow; lia).
    rewrite <- (append_empty_r (pad 6 us)).
    rewrite read_digits_pad_exact by (change_pow; lia).
    rewrite V. reflexivity.
Qed.

(** The text [isoformat] writes is never empty, hence truthy. *)
Lemma isoformat_truthy t : truthy (JStr (isoformat t)) = true.
Proof. reflexivity. Qed.

End DateTimeFacts.

(** ** Token acquisition and refresh *)

Module TokenFacts.

Import Py World Resideo.

Ltac unfold_monad :=
  unfold bind, ret, raise, lift, self, try_except, set_access_token,
    set_refresh_token, set_token_expires, datetime_now, http,
    raise_for_status, response_json, ebind in *.

Ltac break_match :=
  match goal with
  | H : context [match ?x with _ => _ end] |- _ =>
      lazymatch x with
      | context [match _ with _ => _ end] => fail
      | _ => destruct x eqn:?
      end
  | |- context [match ?x with _ => _ end] =>
      lazymatch x with
      | context [match _ with _ => _ end] => fail
      | _ => destruct x eqn:?
      end
  end.

Ltac inv H := inversion H; subst; clear H.
Ltac run := repeat (break_match; try discriminate; simpl in * ).

(** The expiry both token operations compute:
    [datetime.now() + timedelta(seconds=int(expires_in))]. *)
Definition expiry (now : DateTime.datetime) (d : dict) : E DateTime.datetime :=
  n <-- Py.int (get_default "expires_in" (JInt 3600) d) ;;
  delta <-- DateTime.timedelta_seconds n ;;
  DateTime.add now delta.

Definition with_tokens (c : controller) (a r : json)
  (t : option DateTime.datetime) : controller :=
  mkController (client_id c) (client_secret c) (redirect_uri c) a r t.

Lemma store_exchanged_returns td c w u c' w' :
  store_exchanged td c w = (inr u, c', w') ->
  exists d t,
    td = JObj d /\ expiry (clock w (ticks w)) d = inr t /\
    c' = with_tokens c (dict_get "access_token" d)
                       (dict_get "refresh_token" d) (Some t) /\
    w' = snd (read_clock w).
Proof.
  unfold store_exchanged, expiry, py_get, py_get_default, read_clock.
  unfold_monad. intros H. destruct td; try discriminate.
  exists d.
  destruct (Py.int (get_default "expires_in" (JInt 3600) d)) as [e | n];
    [discriminate |]. simpl in H.
  destruct (DateTime.timedelta_seconds n) as [e | delta];
    [discriminate |]. simpl in H.
  destruct (DateTime.add (clock w (ticks w)) delta) as [e | t];
    [discriminate |]. simpl in H.
  exists t. inv H. repeat split; reflexivity.
Qed.

Lemma expiry_raises now d (e : exn) :
  expiry now d = inl e -> is_request_exception e = false.
Proof.
  unfold expiry, Py.int, DateTime.timedelta_seconds, DateTime.add, ebind.
  intros H. run; inv H; reflexivity.
Qed.

Lemma store_exchanged_raises td c w e c' w' :
  store_exchanged td c w = (inl e, c', w') -> is_request_exception e = false.
Proof.
  unfold store_exchanged, py_get, py_get_default, Py.int,
    DateTime.timedelta_seconds, DateTime.add, read_clock.
  unfold_monad. intros H. run; inv H; reflexivity.
Qed.


(** What [exchange_code_for_token] does on each outcome of its request. *)
Definition token_form_exchange (c : controller) (code : string) : request :=
  TokenRequest (client_id c) (client_secret c)
    [("grant_type", JStr "authorization_code"); ("code", JStr code);
     ("redirect_uri", JStr (redirect_uri c))].

Lemma exchange_run code c w :
  exchange_code_for_token code c w =
  let w1 := snd (send (token_form_exchange c code) w) in
  match net w (List.length (sent w)) with
  | Fault r d => (inr (Error (FailedExchange (RequestException r d))), c, w1)
  | Responds r =>
      if (400 <=? status_code r) && (status_code r <? 600)
      then (inr (Error (FailedExchange (HTTPError r))), c, w1)
      else
        match json_body r with
        | None =>
            if json_error_is_request_exception w
            then (inr (Error (FailedExchange (JSONDecodeError true))), c, w1)
            else (inl (JSONDecodeError false), c, w1)
        | Some td =>
            match store_exchanged td c w1 with
            | (inr _, c', w') => (inr (Success td), c', w')
            | (inl e, c', w') => (inl e, c', w')
            end
        end
  end.
Proof.
  unfold exchange_code_for_token, token_form_exchange.
  unfold bind at 1. unfold self at 1. unfold try_except.
  unfold bind at 1. unfold http, send.
  destruct (net w (List.length (sent w))) as [carried d | r]; simpl;
    [reflexivity |].
  unfold bind at 1. unfold raise_for_status.
  destruct ((400 <=? status_code r) && (status_code r <? 600)); simpl;
    [reflexivity |].
  unfold bind at 1. unfold response_json.
  destruct (json_body r) as [td |]; simpl.
  - unfold bind at 1.
    match goal with |- context [store_exchanged td c ?w0] =>
      destruct (store_exchanged td c w0) as [[[e | []] c1] w1] eqn:S end.
    + apply store_exchanged_raises in S. rewrite S. reflexivity.
    + reflexivity.
  - destruct (json_error_is_request_exception w); reflexivity.
Qed.

Lemma store_refreshed_returns td c w u c' w' :
  store_refreshed td c w = (inr u, c', w') ->
  exists d t,
    td = JObj d /\ expiry (clock w (ticks w)) d = inr t /\
    c' = with_tokens c (dict_get "access_token" d)
           (get_default "refresh_token" (refresh_token c) d) (Some t) /\
    w' = snd (read_clock w).
Proof.
  unfold store_refreshed, expiry, py_get, py_get_default, read_clock.
  unfold_monad. intros H. destruct td; try discriminate.
  exists d. unfold with_tokens.
  change (get_default "refresh_token" (refresh_token c) d) with
    (match lookup "refresh_token" d with
     | Some v => v
     | None => refresh_token c
     end).
  unfold read_clock in H.
  destruct (lookup "refresh_token" d) as [r |]; cbv beta iota zeta in H;
    (destruct (Py.int (get_default "expires_in" (JInt 3600) d)) as [e | n];
       [discriminate H |]; cbv beta iota zeta in H;
     destruct (DateTime.timedelta_seconds n) as [e | delta];
       [discriminate H |]; cbv beta iota zeta in H;
     destruct (DateTime.add (clock w (ticks w)) delta) as [e | t];
       [discriminate H |];
     exists t; inv H; repeat split; reflexivity).
Qed.

Lemma store_refreshed_raises td c w e c' w' :
  store_refreshed td c w = (inl e, c', w') -> is_request_exception e = false.
Proof.
  unfold store_refreshed, py_get, py_get_default, Py.int,
    DateTime.timedelta_seconds, DateTime.add, read_clock.
  unfold_monad. intros H. run; inv H; reflexivity.
Qed.


Definition token_form_refresh (c : controller) : request :=
  TokenRequest (client_id c) (client_secret c)
    [("grant_type", JStr "refresh_token");
     ("refresh_token", refresh_token c)].

(** What [refresh_access_token] does on each outcome of its request. *)
Lemma refresh_run c w :
  refresh_access_token c w =
  if negb (truthy (refresh_token c)) then (inr (Error NoRefreshToken), c, w)
  else
    let w1 := snd (send (token_form_refresh c) w) in
    match net w (List.length (sent w)) with
    | Fault r d => (inr (Error (FailedRefresh (RequestException r d))), c, w1)
    | Responds r =>
        if (400 <=? status_code r) && (status_code r <? 600)
        then (inr (Error (FailedRefresh (HTTPError r))), c, w1)
        else
          match json_body r with
          | None =>
              if json_error_is_request_exception w
              then (inr (Error (FailedRefresh (JSONDecodeError true))), c, w1)
              else (inl (JSONDecodeError false), c, w1)
          | Some td =>
              match store_refreshed td c w1 with
              | (inr _, c', w') =>
                  (inr (SuccessMessage "Token refreshed successfully"), c', w')
              | (inl e, c', w') => (inl e, c', w')
              end
          end
    end.
Proof.
  unfold refresh_access_token, token_form_refresh.
  unfold bind at 1. unfold self at 1.
  destruct (negb (truthy (refresh_token c))); [reflexivity |].
  unfold try_except.
  unfold bind at 1. unfold http, send.
  destruct (net w (List.length (sent w))) as [carried d | r]; simpl;
    [reflexivity |].
  unfold bind at 1. unfold raise_for_status.
  destruct ((400 <=? status_code r) && (status_code r <? 600)); simpl;
    [reflexivity |].
  unfold bind at 1. unfold response_json.
  destruct (json_body r) as [td |]; simpl.
  - unfold bind at 1.
    match goal with |- context [store_refreshed td c ?w0] =>
      destruct (store_refreshed td c w0) as [[[e | []] c1] w1] eqn:S end.
    + apply store_refreshed_raises in S. rewrite S. reflexivity.
    + reflexivity.
  - destruct (json_error_is_request_exception w); reflexivity.
Qed.

Definition FIVE_MINUTES : DateTime.timedelta := 300000000.

(** What [_ensure_valid_token] does, case by case. *)
Lemma ensure_run c w :
  _ensure_valid_token c w =
  if negb (truthy (access_token c)) then (inr false, c, w)
  else
    match token_expires c with
    | None => (inr true, c, w)
    | Some expires =>
        let w1 := snd (read_clock w) in
        match DateTime.sub expires FIVE_MINUTES with
        | inl e => (inl e, c, w1)
        | inr limit =>
            if DateTime.ge (clock w (ticks w)) limit then
              match refresh_access_token c w1 with
              | (inr r, c', w') => (inr (get_success r), c', w')
              | (inl e, c', w') => (inl e, c', w')
              end
            else (inr true, c, w1)
        end
    end.
Proof.
  unfold _ensure_valid_token.
  unfold bind at 1. unfold self at 1.
  destruct (negb (truthy (access_token c))); [reflexivity |].
  destruct (token_expires c) as [expires |]; [| reflexivity].
  unfold bind at 1. unfold datetime_now, read_clock.
  unfold bind at 1. unfold lift at 1.
  change (DateTime.timedelta_minutes 5) with
    (@inr exn DateTime.timedelta FIVE_MINUTES). cbv iota beta.
  unfold bind at 1. unfold lift at 1. cbv zeta. simpl snd.
  destruct (DateTime.sub expires FIVE_MINUTES) as [e | limit]; [reflexivity |].
  destruct (DateTime.ge (clock w (ticks w)) limit); [| reflexivity].
  unfold bind at 1.
  destruct (refresh_access_token c _) as [[[e | r] c1] w1]; reflexivity.
Qed.

End TokenFacts.

(** ** The request executor *)

Module RequestFacts.

Import Py World Resideo TokenFacts.

(** The verb sent for a method name, and whether the body goes with it. *)
Definition verb_of (method : string) : option (string * bool) :=
  if String.eqb (upper method) "GET" then Some ("GET", false)
  else if String.eqb (upper method) "POST" then Some ("POST", true)
  else if String.eqb (upper method) "PUT" then Some ("PUT", true)
  else if String.eqb (upper method) "DELETE" then Some ("DELETE", false)
  else None.

(** The error reported for a failure that carries a response. *)
Definition error_of_response (r : response) : result :=
  match json_body r with
  | Some error_data => Error (ApiError error_data)
  | None => Error (HttpStatus (status_code r) (text r))
  end.

Definition is_error_status (r : response) : bool :=
  (400 <=? status_code r) && (status_code r <? 600).

Definition empty_ok (r : response) : bool :=
  existsb (Z.eqb (status_code r)) [200; 201; 202; 204]
  && Nat.eqb (String.length (content r)) 0.

(** The result the executor builds from the outcome of its request. *)
Definition classify (out : http_outcome) : result :=
  match out with
  | Fault (Some r) _ => error_of_response r
  | Fault None d => Error (RequestFailed (RequestException None d))
  | Responds r =>
      if is_error_status r then error_of_response r
      else if empty_ok r then Success (JObj [])
      else
        match json_body r with
        | Some v => Success v
        | None => Success (JObj [("response_text", JStr (text r))])
        end
  end.

Definition api_request (c : controller) (verb : string) (ep : endpoint)
  (body : option json) : request :=
  ApiRequest verb ep (if has_query ep then "&" else "?")
             (client_id c) (access_token c) body.

Lemma request_run method ep data c w :
  _make_api_request method ep data c w =
  match _ensure_valid_token c w with
  | (inl e, c1, w1) => (inl e, c1, w1)
  | (inr false, c1, w1) => (inr (Error NoValidToken), c1, w1)
  | (inr true, c1, w1) =>
      match verb_of method with
      | None => (inr (Error (UnsupportedMethod method)), c1, w1)
      | Some (verb, with_body) =>
          (inr (classify (net w1 (List.length (sent w1)))), c1,
           snd (send (api_request c1 verb ep
                        (if with_body then data else None)) w1))
      end
  end.
Proof.
  unfold _make_api_request. unfold bind at 1.
  destruct (_ensure_valid_token c w) as [[[e | [|]] c1] w1];
    [reflexivity | | reflexivity].
  cbn [negb]. unfold bind at 1. unfold self at 1.
  assert (K : forall verb body,
    try_except
      (response <- http (api_request c1 verb ep body) ;;
       raise_for_status response ;;;
       (if existsb (Z.eqb (status_code response)) [200; 201; 202; 204]
           && Nat.eqb (String.length (content response)) 0
        then ret (Success (JObj []))
        else
          try_except (v <- response_json response ;; ret (Success v))
            is_value_error
            (fun _ =>
               ret (Success (JObj [("response_text", JStr (text response))])))))
      is_request_exception
      (fun e =>
         match e with
         | RequestException (Some r) _ | HTTPError r =>
             try_except
               (error_data <- response_json r ;;
                ret (Error (ApiError error_data)))
               any_exception
               (fun _ => ret (Error (HttpStatus (status_code r) (text r))))
         | _ => ret (Error (RequestFailed e))
         end) c1 w1
    = (inr (classify (net w1 (List.length (sent w1)))), c1,
       snd (send (api_request c1 verb ep body) w1))).
  { intros verb body.
    unfold classify, error_of_response, is_error_status, empty_ok.
    unfold try_except at 1. unfold bind at 1. unfold http, send.
    destruct (net w1 (List.length (sent w1))) as [[r |] d | r];
      cbv beta iota zeta.
    - unfold error_of_response, try_except, bind, response_json, ret.
      destruct (json_body r); reflexivity.
    - reflexivity.
    - unfold bind at 1. unfold raise_for_status, is_error_status.
      destruct ((400 <=? status_code r) && (status_code r <? 600));
        cbv beta iota zeta delta [raise ret].
      + unfold error_of_response, try_except, bind, response_json, ret.
        destruct (json_body r); reflexivity.
      + unfold empty_ok.
        destruct (existsb (Z.eqb (status_code r)) [200; 201; 202; 204]
                  && Nat.eqb (String.length (content r)) 0); cbn;
          [reflexivity |].
        unfold try_except, bind, response_json, ret.
        destruct (json_body r); reflexivity. }
  unfold verb_of, api_request in *.
  destruct (String.eqb (upper method) "GET"); [apply K |].
  destruct (String.eqb (upper method) "POST"); [apply K |].
  destruct (String.eqb (upper method) "PUT"); [apply K |].
  destruct (String.eqb (upper method) "DELETE"); [apply K |].
  reflexivity.
Qed.

End RequestFacts.

(** ** Persistence *)

Module PersistenceFacts.

Import Py World Resideo TokenFacts.

(** The document [save_tokens] writes. *)
Definition token_document (c : controller) : json :=
  JObj [("access_token", access_token c);
        ("refresh_token", refresh_token c);
        ("expires", match token_expires c with
                    | Some t => JStr (DateTime.isoformat t)
                    | None => JNull
                    end);
        ("client_id", JStr (client_id c))].

Lemma save_run f c w :
  save_tokens f c w =
  if writable w f then (inr true, c, write_file f (token_document c) w)
  else (inr false, c, w).
Proof.
  unfold save_tokens, try_except, bind, self, dump_file, ret, token_document.
  destruct (writable w f); reflexivity.
Qed.

Lemma load_run f c w :
  load_tokens f c w =
  match files w f with
  | Doc (JObj d) =>
      let a := dict_get "access_token" d in
      let r := dict_get "refresh_token" d in
      if truthy (dict_get "expires" d) then
        match py_fromisoformat (dict_get "expires" d) with
        | inr t => (inr true, with_tokens c a r (Some t), w)
        | inl _ => (inr false, with_tokens c a r (token_expires c), w)
        end
      else (inr true, with_tokens c a r (token_expires c), w)
  | _ => (inr false, c, w)
  end.
Proof.
  unfold load_tokens, try_except, bind, load_file, lift, py_get,
    py_get_default, set_access_token, set_refresh_token, set_token_expires,
    ret, any_exception, with_tokens, dict_get.
  destruct (files w f) as [| | v]; try reflexivity.
  destruct v; try reflexivity. cbv beta iota zeta.
  destruct (truthy (get_default "expires" JNull d)); [| reflexivity].
  destruct (py_fromisoformat (get_default "expires" JNull d)); reflexivity.
Qed.

End PersistenceFacts.

(** ** What an operation sends *)

Module Traffic.

Import Py World Resideo TokenFacts.

(** [sends Q m]: whatever [m] does, the requests it adds to the log all
    satisfy [Q]. *)
Definition sends {A} (Q : request -> Prop) (m : M A) : Prop :=
  forall c w x c' w',
    m c w = (x, c', w') ->
    exists added, sent w' = (added ++ sent w)%list /\ Forall Q added.

Lemma sends_silent {A} Q (m : M A) :
  (forall c w, sent (snd (m c w)) = sent w) -> sends Q m.
Proof.
  intros S c w x c' w' H. exists []. split; [| constructor].
  specialize (S c w). rewrite H in S. exact S.
Qed.

Lemma sends_ret {A} Q (a : A) : sends Q (ret a).
Proof. apply sends_silent. reflexivity. Qed.

Lemma sends_raise {A} Q e : sends Q (@raise A e).
Proof. apply sends_silent. reflexivity. Qed.

Lemma sends_lift {A} Q (m : E A) : sends Q (lift m).
Proof. apply sends_silent. reflexivity. Qed.

Lemma sends_self Q : sends Q self.
Proof. apply sends_silent. reflexivity. Qed.

Lemma sends_set_access_token Q v : sends Q (set_access_token v).
Proof. apply sends_silent. reflexivity. Qed.

Lemma sends_set_refresh_token Q v : sends Q (set_refresh_token v).
Proof. apply sends_silent. reflexivity. Qed.

Lemma sends_set_token_expires Q t : sends Q (set_token_expires t).
Proof. apply sends_silent. reflexivity. Qed.

Lemma sends_datetime_now Q : sends Q datetime_now.
Proof. apply sends_silent. reflexivity. Qed.

Lemma sends_raise_for_status Q r : sends Q (raise_for_status r).
Proof.
  unfold raise_for_status.
  destruct ((400 <=? status_code r) && (status_code r <? 600));
    [apply sends_raise | apply sends_ret].
Qed.

Lemma sends_response_json Q r : sends Q (response_json r).
Proof.
  apply sends_silent. intros c w. unfold response_json.
  destruct (json_body r); reflexivity.
Qed.

Lemma sends_http (Q : request -> Prop) rq : Q rq -> sends Q (http rq).
Proof.
  intros H c w x c' w'. unfold http, send.
  destruct (net w (List.length (sent w))); intros E; inv E;
    exists [rq]; split; try reflexivity; repeat constructor; exact H.
Qed.

(** The continuation may use that its argument was returned by [m]. *)
Lemma sends_bind {A B} Q (m : M A) (k : A -> M B) :
  sends Q m ->
  (forall a, (exists c w c' w', m c w = (inr a, c', w')) -> sends Q (k a)) ->
  sends Q (bind m k).
Proof.
  intros Hm Hk c w x c' w'. unfold bind.
  destruct (m c w) as [[[e | a] c1] w1] eqn:R.
  - intros E; inv E. exact (Hm _ _ _ _ _ R).
  - intros E.
    destruct (Hm _ _ _ _ _ R) as (p1 & S1 & F1).
    assert (Ha : exists c w c' w', m c w = (inr a, c', w'))
      by (exists c, w, c1, w1; exact R).
    destruct (Hk a Ha _ _ _ _ _ E) as (p2 & S2 & F2).
    exists (p2 ++ p1)%list. split.
    + rewrite S2, S1. apply app_assoc.
    + apply Forall_app. split; assumption.
Qed.

Lemma sends_try_except {A} Q (body : M A) catches handler :
  sends Q body -> (forall e, sends Q (handler e)) ->
  sends Q (try_except body catches handler).
Proof.
  intros Hb Hh c w x c' w'. unfold try_except.
  destruct (body c w) as [[[e | a] c1] w1] eqn:R.
  - destruct (catches e).
    + intros E.
      destruct (Hb _ _ _ _ _ R) as (p1 & S1 & F1).
      destruct (Hh e _ _ _ _ _ E) as (p2 & S2 & F2).
      exists (p2 ++ p1)%list. split.
      * rewrite S2, S1. apply app_assoc.
      * apply Forall_app. split; assumption.
    + intros E; inv E. exact (Hb _ _ _ _ _ R).
  - intros E; inv E. exact (Hb _ _ _ _ _ R).
Qed.

Lemma sends_weaken {A} (Q Q' : request -> Prop) (m : M A) :
  (forall rq, Q rq -> Q' rq) -> sends Q m -> sends Q' m.
Proof.
  intros I H c w x c' w' R. destruct (H _ _ _ _ _ R) as (p & S & F).
  exists p. split; [exact S |]. eapply Forall_impl; eassumption.
Qed.

Ltac step :=
  lazymatch goal with
  | |- sends _ (ret _) => apply sends_ret
  | |- sends _ (raise _) => apply sends_raise
  | |- sends _ (lift _) => apply sends_lift
  | |- sends _ self => apply sends_self
  | |- sends _ (set_access_token _) => apply sends_set_access_token
  | |- sends _ (set_refresh_token _) => apply sends_set_refresh_token
  | |- sends _ (set_token_expires _) => apply sends_set_token_expires
  | |- sends _ datetime_now => apply sends_datetime_now
  | |- sends _ (raise_for_status _) => apply sends_raise_for_status
  | |- sends _ (response_json _) => apply sends_response_json
  | |- sends _ (bind _ _) => apply sends_bind; [| intros ? ?]
  | |- sends _ (try_except _ _ _) => apply sends_try_except; [| intros ?]
  end.

Definition is_token_request (rq : request) : Prop :=
  match rq with TokenRequest _ _ _ => True | _ => False end.

Lemma sends_store_refreshed Q td : sends Q (store_refreshed td).
Proof.
  unfold store_refreshed. repeat step.
  destruct td; repeat step. destruct (lookup "refresh_token" d); step.
Qed.

Lemma sends_store_exchanged Q td : sends Q (store_exchanged td).
Proof. unfold store_exchanged. repeat step. Qed.

Lemma sends_refresh : sends is_token_request refresh_access_token.
Proof.
  unfold refresh_access_token. step; [step |].
  destruct (negb (truthy (refresh_token a))); [step |].
  step; [| step]. step; [apply sends_http; exact I |].
  repeat step. apply sends_store_refreshed.
Qed.

Lemma sends_exchange code :
  sends is_token_request (exchange_code_for_token code).
Proof.
  unfold exchange_code_for_token. step; [step |].
  step; [| step]. step; [apply sends_http; exact I |].
  repeat step. apply sends_store_exchanged.
Qed.

Lemma sends_ensure : sends is_token_request _ensure_valid_token.
Proof.
  unfold _ensure_valid_token. step; [step |].
  destruct (negb (truthy (access_token a))); [step |].
  destruct (token_expires a); [| step].
  repeat step. destruct (DateTime.ge a0 a2); [| step].
  step; [apply sends_refresh | step].
Qed.

(** A request of the executor: its verb, endpoint and body. *)
Definition is_api_request (verb : string) (ep : endpoint)
  (body : option json) (rq : request) : Prop :=
  exists key bearer,
    rq = ApiRequest verb ep (if has_query ep then "&" else "?") key bearer
                    body.

Definition executor_request (method : string) (ep : endpoint)
  (data : option json) (rq : request) : Prop :=
  is_token_request rq \/
  exists verb b,
    RequestFacts.verb_of method = Some (verb, b) /\
    is_api_request verb ep (if b then data else None) rq.

Lemma sends_request method ep data :
  sends (executor_request method ep data) (_make_api_request method ep data).
Proof.
  unfold _make_api_request. step.
  { eapply sends_weaken; [| apply sends_ensure]. intros rq H; left; exact H. }
  destruct a; cbn [negb]; [| step]. step; [step |].
  assert (K : forall verb b,
            RequestFacts.verb_of method = Some (verb, b) ->
            executor_request method ep data
              (ApiRequest verb ep (if has_query ep then "&" else "?")
                 (client_id a) (access_token a) (if b then data else None))).
  { intros verb b V. right. exists verb, b. split; [exact V |].
    exists (client_id a), (access_token a). reflexivity. }
  unfold RequestFacts.verb_of in K.
  step.
  - destruct (String.eqb (upper method) "GET").
    { step; [apply sends_http; apply (K "GET" false eq_refl) |].
      repeat step.
      destruct (existsb _ _ && _); repeat step. }
    destruct (String.eqb (upper method) "POST").
    { step; [apply sends_http; apply (K "POST" true eq_refl) |].
      repeat step.
      destruct (existsb _ _ && _); repeat step. }
    destruct (String.eqb (upper method) "PUT").
    { step; [apply sends_http; apply (K "PUT" true eq_refl) |].
      repeat step.
      destruct (existsb _ _ && _); repeat step. }
    destruct (String.eqb (upper method) "DELETE").
    { step; [apply sends_http; apply (K "DELETE" false eq_refl) |].
      repeat step.
      destruct (existsb _ _ && _); repeat step. }
    step.
  - destruct e as [[r |] t | r | | | | | | | |]; repeat step.
Qed.

End Traffic.

(** ** Sample sessions and worlds *)

Module Samples.

Import Py World Resideo.

Definition noon : DateTime.datetime := DateTime.mk 2025 6 1 12 0 0 0.

(** A world in which every request meets [outcome], the clock stands at
    [noon], no file exists and every file can be written. *)
Definition world_answering (outcome : http_outcome) : world :=
  mkWorld (fun _ => outcome) [] (fun _ => noon) 0
          (fun _ => NoFile) (fun _ => true) true.

Definition offline : world := world_answering (Fault None "connection refused").

Definition world_with_file (name : string) (v : json) : world :=
  mkWorld (fun _ => Fault None "connection refused") [] (fun _ => noon) 0
          (fun n => if String.eqb n name then Doc v else NoFile)
          (fun _ => true) true.

Definition fresh : controller := init "client" "secret" None.

Definition session (a r : json) (t : option DateTime.datetime) : controller :=
  mkController "client" "secret" "http://localhost:8080/callback" a r t.

Definition answer (status : Z) (body : string) (parsed : option json)
  : http_outcome :=
  Responds (mkResponse status body body parsed).

End Samples.

Import Py World Resideo TokenFacts RequestFacts PersistenceFacts Traffic
  Samples.

(** ** Token validity (C1) *)

(** C1 as stated fails: a session that holds an access token but no expiry
    passes the validity check, without any refresh. *)
Lemma missing_expiry_passes_validity_check :
  token_expires (session (JStr "token") JNull None) = None /\
  _ensure_valid_token (session (JStr "token") JNull None) offline
  = (inr true, session (JStr "token") JNull None, offline) /\
  fst (fst (_ensure_valid_token (session (JStr "token") JNull None) offline))
  <> inr false.
Proof. split; [| split]; [reflexivity | reflexivity | discriminate]. Qed.

(** C1, amended.  The validity check is false when no access token is
    held; true when a token is held and no expiry is recorded; true when
    the clock reads earlier than the expiry minus five minutes; from that
    margin on, the held token is not accepted as it is: a refresh is
    attempted and the check returns that refresh's success flag (false at
    once when no refresh token is held). *)
Theorem ensure_valid_token_cases c w :
  (truthy (access_token c) = false ->
   _ensure_valid_token c w = (inr false, c, w)) /\
  (truthy (access_token c) = true -> token_expires c = None ->
   _ensure_valid_token c w = (inr true, c, w)) /\
  (forall expires limit,
     truthy (access_token c) = true -> token_expires c = Some expires ->
     DateTime.sub (R := response) expires FIVE_MINUTES = inr limit ->
     (DateTime.lt (clock w (ticks w)) limit = true ->
      _ensure_valid_token c w = (inr true, c, snd (read_clock w))) /\
     (DateTime.ge (clock w (ticks w)) limit = true ->
      _ensure_valid_token c w =
        (let '(r, c', w') := refresh_access_token c (snd (read_clock w)) in
         (match r with
          | inr r => inr (get_success r)
          | inl e => inl e
          end, c', w')) /\
      (truthy (refresh_token c) = false ->
       _ensure_valid_token c w = (inr false, c, snd (read_clock w))))).
Proof.
  split; [| split].
  - intros A. rewrite ensure_run, A. reflexivity.
  - intros A X. rewrite ensure_run, A, X. reflexivity.
  - intros expires limit A X S.
    rewrite ensure_run, A, X. cbv zeta. rewrite S. unfold DateTime.ge.
    split; [intros L; rewrite L; reflexivity |].
    intros G. apply negb_true_iff in G. rewrite G. cbn [negb]. split.
    + destruct (refresh_access_token c _) as [[[e | r] c1] w1]; reflexivity.
    + intros R. rewrite refresh_run, R. reflexivity.
Qed.

Lemma ensure_valid_token_cases_witness :
  _ensure_valid_token
    (session (JStr "token") JNull (Some (DateTime.mk 2025 6 1 12 3 0 0)))
    offline
  = (inr false,
     session (JStr "token") JNull (Some (DateTime.mk 2025 6 1 12 3 0 0)),
     snd (read_clock offline)).
Proof.
  refine (proj2 (proj2 (proj2 (proj2 (ensure_valid_token_cases _ _))
    (DateTime.mk 2025 6 1 12 3 0 0) (DateTime.mk 2025 6 1 11 58 0 0)
    _ _ _) _) _); reflexivity.
Defined.

(** ** Errors leave the token triple alone (C10) *)

Lemma exchange_error_keeps_session code c w m c' w' :
  exchange_code_for_token code c w = (inr (Error m), c', w') -> c' = c.
Proof.
  rewrite exchange_run. cbv zeta.
  destruct (net w (List.length (sent w))) as [carried d | r].
  - intros H; inv H; reflexivity.
  - destruct ((400 <=? status_code r) && (status_code r <? 600)).
    + intros H; inv H; reflexivity.
    + destruct (json_body r) as [td |].
      * destruct (store_exchanged td c _) as [[[e | []] c1] w1];
          discriminate.
      * destruct (json_error_is_request_exception w);
          [intros H; inv H; reflexivity | discriminate].
Qed.

Lemma refresh_error_keeps_session c w m c' w' :
  refresh_access_token c w = (inr (Error m), c', w') -> c' = c.
Proof.
  rewrite refresh_run.
  destruct (negb (truthy (refresh_token c))); [intros H; inv H; reflexivity |].
  cbv zeta.
  destruct (net w (List.length (sent w))) as [carried d | r].
  - intros H; inv H; reflexivity.
  - destruct ((400 <=? status_code r) && (status_code r <? 600)).
    + intros H; inv H; reflexivity.
    + destruct (json_body r) as [td |].
      * destruct (store_refreshed td c _) as [[[e | []] c1] w1];
          discriminate.
      * destruct (json_error_is_request_exception w);
          [intros H; inv H; reflexivity | discriminate].
Qed.

(** With the token endpoint unreachable or answering an error status, both
    token operations report an error and assign nothing. *)
Lemma exchange_fails_cleanly code c w :
  (exists r d, net w (List.length (sent w)) = Fault r d) \/
  (exists r, net w (List.length (sent w)) = Responds r /\
             is_error_status r = true) ->
  exists m w', exchange_code_for_token code c w = (inr (Error m), c, w').
Proof.
  intros [[r [d F]] | [r [F S]]]; do 2 eexists; rewrite exchange_run, F.
  - reflexivity.
  - unfold is_error_status in S. cbv zeta. rewrite S. reflexivity.
Qed.

Lemma refresh_fails_cleanly c w :
  (exists r d, net w (List.length (sent w)) = Fault r d) \/
  (exists r, net w (List.length (sent w)) = Responds r /\
             is_error_status r = true) ->
  exists m w', refresh_access_token c w = (inr (Error m), c, w').
Proof.
  intros F. rewrite refresh_run.
  destruct (negb (truthy (refresh_token c))); [do 2 eexists; reflexivity |].
  destruct F as [[r [d F]] | [r [F S]]]; rewrite F; cbv zeta.
  - do 2 eexists; reflexivity.
  - unfold is_error_status in S. rewrite S. do 2 eexists; reflexivity.
Qed.

(** C10.  Whenever [exchange_code_for_token] or [refresh_access_token]
    returns the error dictionary, the session is what it was before the
    call: access token, refresh token and expiry are untouched.  Transport
    faults and HTTP error statuses are among the cases that return it. *)
Theorem token_errors_are_atomic c w :
  (forall code m c' w',
     exchange_code_for_token code c w = (inr (Error m), c', w') ->
     access_token c' = access_token c /\
     refresh_token c' = refresh_token c /\
     token_expires c' = token_expires c) /\
  (forall m c' w',
     refresh_access_token c w = (inr (Error m), c', w') ->
     access_token c' = access_token c /\
     refresh_token c' = refresh_token c /\
     token_expires c' = token_expires c) /\
  ((exists r d, net w (List.length (sent w)) = Fault r d) \/
   (exists r, net w (List.length (sent w)) = Responds r /\
              is_error_status r = true) ->
   (forall code, exists m w',
      exchange_code_for_token code c w = (inr (Error m), c, w')) /\
   (exists m w', refresh_access_token c w = (inr (Error m), c, w'))).
Proof.
  split; [| split].
  - intros code m c' w' H.
    apply exchange_error_keeps_session in H. subst. repeat split.
  - intros m c' w' H.
    apply refresh_error_keeps_session in H. subst. repeat split.
  - intros F. split.
    + intros code. apply exchange_fails_cleanly. exact F.
    + apply refresh_fails_cleanly. exact F.
Qed.

Lemma token_errors_are_atomic_witness :
  access_token (snd (fst (exchange_code_for_token "code"
                            (session (JStr "old") (JStr "r") (Some noon))
                            (world_answering (answer 401 "" None)))))
  = JStr "old".
Proof.
  refine (proj1 (proj1 (token_errors_are_atomic
            (session (JStr "old") (JStr "r") (Some noon))
            (world_answering (answer 401 "" None)))
          "code"
          (FailedExchange (HTTPError (mkResponse 401 "" "" None)))
          _
          (snd (exchange_code_for_token "code"
                  (session (JStr "old") (JStr "r") (Some noon))
                  (world_answering (answer 401 "" None))))
          _)).
  vm_compute. reflexivity.
Defined.

(** ** Failed loads (C2) *)

Definition stale_file : json :=
  JObj [("access_token", JStr "new"); ("refresh_token", JStr "new-r");
        ("expires", JStr "not-a-date")].

(** C2 as stated fails: a file whose expiry cannot be parsed makes
    [load_tokens] return [False] after it has replaced the access and
    refresh tokens. *)
Lemma failed_load_replaces_tokens :
  let c := session (JStr "old") (JStr "old-r") (Some noon) in
  let w := world_with_file "resideo_tokens.json" stale_file in
  load_tokens "resideo_tokens.json" c w
  = (inr false, session (JStr "new") (JStr "new-r") (Some noon), w) /\
  access_token (snd (fst (load_tokens "resideo_tokens.json" c w)))
  <> access_token c /\
  refresh_token (snd (fst (load_tokens "resideo_tokens.json" c w)))
  <> refresh_token c.
Proof. split; [| split]; [reflexivity | discriminate | discriminate]. Qed.

(** C2, amended.  When [load_tokens] returns [False] the stored expiry
    and the world are unchanged.  If the file is missing, is not JSON or
    does not hold an object, the whole session is unchanged; otherwise the
    failure is an expiry that is present but cannot be parsed, and the
    access and refresh tokens have already been replaced by the file's. *)
Theorem load_tokens_failure f c w c' w' :
  load_tokens f c w = (inr false, c', w') ->
  w' = w /\ token_expires c' = token_expires c /\
  ((forall d, files w f <> Doc (JObj d)) /\ c' = c \/
   exists d e,
     files w f = Doc (JObj d) /\
     truthy (dict_get "expires" d) = true /\
     py_fromisoformat (dict_get "expires" d) = inl e /\
     c' = with_tokens c (dict_get "access_token" d)
                        (dict_get "refresh_token" d) (token_expires c)).
Proof.
  rewrite load_run.
  destruct (files w f) as [| | v] eqn:F;
    try (intros H; inv H; repeat split; left; split;
         [intros d; discriminate | reflexivity]).
  destruct v;
    try (intros H; inv H; repeat split; left; split;
         [intros d'; discriminate | reflexivity]).
  cbv zeta.
  destruct (truthy (dict_get "expires" d)) eqn:T; [| discriminate].
  destruct (py_fromisoformat (dict_get "expires" d)) as [e | t] eqn:P;
    [| discriminate].
  intros H; inv H. repeat split. right. exists d, e. repeat split; assumption.
Qed.

Lemma load_tokens_failure_witness :
  token_expires
    (snd (fst (load_tokens "resideo_tokens.json"
                 (session (JStr "old") (JStr "old-r") (Some noon))
                 (world_with_file "resideo_tokens.json" stale_file))))
  = Some noon.
Proof.
  refine (proj1 (proj2 (load_tokens_failure "resideo_tokens.json"
    (session (JStr "old") (JStr "old-r") (Some noon))
    (world_with_file "resideo_tokens.json" stale_file) _
    (world_with_file "resideo_tokens.json" stale_file) _))).
  vm_compute. reflexivity.
Defined.

(** ** Access token and expiry together (C3) *)

(** "If [access_token] is present, [token_expires] is present." *)
Definition tokens_paired (c : controller) : Prop :=
  access_token c <> JNull -> token_expires c <> None.

Definition file_without_expiry : json :=
  JObj [("access_token", JStr "token"); ("refresh_token", JStr "r")].

(** C3 as stated fails: loading a file that carries an access token and no
    expiry into a new session succeeds and leaves the token without an
    expiry. *)
Lemma load_breaks_token_pairing :
  let w := world_with_file "resideo_tokens.json" file_without_expiry in
  tokens_paired fresh /\
  load_tokens "resideo_tokens.json" fresh w
  = (inr true, with_tokens fresh (JStr "token") (JStr "r") None, w) /\
  ~ tokens_paired (with_tokens fresh (JStr "token") (JStr "r") None).
Proof.
  repeat split.
  - intros H. exfalso. apply H. reflexivity.
  - intros H. apply H; [discriminate | reflexivity].
Qed.

Lemma exchange_success_sets_expiry code c w data c' w' :
  exchange_code_for_token code c w = (inr (Success data), c', w') ->
  token_expires c' <> None.
Proof.
  rewrite exchange_run. cbv zeta.
  destruct (net w (List.length (sent w))) as [carried d | r];
    [discriminate |].
  destruct ((400 <=? status_code r) && (status_code r <? 600));
    [discriminate |].
  destruct (json_body r) as [td |].
  - destruct (store_exchanged td c _) as [[[e | []] c1] w1] eqn:S;
      [discriminate |].
    intros H; inv H.
    apply store_exchanged_returns in S.
    destruct S as (d & t & _ & _ & -> & _). discriminate.
  - destruct (json_error_is_request_exception w); discriminate.
Qed.

Lemma refresh_success_sets_expiry c w r c' w' :
  refresh_access_token c w = (inr r, c', w') -> get_success r = true ->
  token_expires c' <> None.
Proof.
  rewrite refresh_run.
  destruct (negb (truthy (refresh_token c)));
    [intros H; inv H; discriminate |].
  cbv zeta.
  destruct (net w (List.length (sent w))) as [carried d | rs];
    [intros H; inv H; discriminate |].
  destruct ((400 <=? status_code rs) && (status_code rs <? 600));
    [intros H; inv H; discriminate |].
  destruct (json_body rs) as [td |].
  - destruct (store_refreshed td c _) as [[[e | []] c1] w1] eqn:S;
      [discriminate |].
    intros H; inv H. intros _.
    apply store_refreshed_returns in S.
    destruct S as (d & t & _ & _ & -> & _). discriminate.
  - destruct (json_error_is_request_exception w);
      [intros H; inv H; discriminate | discriminate].
Qed.

(** C3, amended.  [exchange_code_for_token] and [refresh_access_token]
    keep the pairing whenever they return: on success the expiry is set
    together with the access token, on error nothing is assigned.
    [load_tokens] assigns the expiry only from a file that carries one:
    it keeps the pairing when the file's expiry is parsed or the session
    already held an expiry, and otherwise leaves the expiry as it was. *)
Theorem token_pairing c w :
  (forall code r c' w',
     exchange_code_for_token code c w = (inr r, c', w') ->
     tokens_paired c -> tokens_paired c') /\
  (forall r c' w',
     refresh_access_token c w = (inr r, c', w') ->
     tokens_paired c -> tokens_paired c') /\
  (forall f b c' w',
     load_tokens f c w = (inr b, c', w') ->
     (token_expires c <> None -> token_expires c' <> None) /\
     (forall d, files w f = Doc (JObj d) ->
                truthy (dict_get "expires" d) = true -> b = true ->
                token_expires c' <> None) /\
     (forall d, files w f = Doc (JObj d) ->
                truthy (dict_get "expires" d) = false ->
                token_expires c' = token_expires c)).
Proof.
  split; [| split].
  - intros code r c' w' H P. destruct r as [data | msg | m].
    + intros _. eapply exchange_success_sets_expiry; eassumption.
    + intros _. revert H. rewrite exchange_run. cbv zeta.
      destruct (net w (List.length (sent w))) as [carried d | rs];
        [discriminate |].
      destruct ((400 <=? status_code rs) && (status_code rs <? 600));
        [discriminate |].
      destruct (json_body rs) as [td |].
      * destruct (store_exchanged td c _) as [[[e | []] c1] w1];
          discriminate.
      * destruct (json_error_is_request_exception w); discriminate.
    + apply exchange_error_keeps_session in H. subst. exact P.
  - intros r c' w' H P. destruct r as [data | msg | m].
    + intros _. eapply refresh_success_sets_expiry; [eassumption | reflexivity].
    + intros _. eapply refresh_success_sets_expiry; [eassumption | reflexivity].
    + apply refresh_error_keeps_session in H. subst. exact P.
  - intros f b c' w'. rewrite load_run.
    assert (K : forall x, (forall d, x <> Doc (JObj d)) ->
      (inr false, c, w) = (@inr exn bool b, c', w') ->
      (token_expires c <> None -> token_expires c' <> None) /\
      (forall d, x = Doc (JObj d) ->
                 truthy (dict_get "expires" d) = true -> b = true ->
                 token_expires c' <> None) /\
      (forall d, x = Doc (JObj d) ->
                 truthy (dict_get "expires" d) = false ->
                 token_expires c' = token_expires c)).
    { intros x N H; inv H. split; [trivial |].
      split; intros d D; destruct (N d D). }
    destruct (files w f) as [| | v] eqn:F;
      try (apply K; intros d; discriminate).
    destruct v; try (apply K; intros d'; discriminate).
    cbv zeta.
    destruct (truthy (dict_get "expires" d)) eqn:T.
    + destruct (py_fromisoformat (dict_get "expires" d)) as [e | t];
        intros H; inv H.
      * split; [trivial |].
        split; intros d' D; inv D; intros T'.
        -- intros B; discriminate B.
        -- rewrite T in T'; discriminate T'.
      * split; [discriminate |].
        split; intros d' D; inv D; intros T'.
        -- discriminate.
        -- rewrite T in T'; discriminate T'.
    + intros H; inv H.
      split; [trivial |].
      split; intros d' D; inv D; intros T'; [| reflexivity].
      rewrite T in T'; discriminate T'.
Qed.

Definition token_reply : json := JObj [("access_token", JStr "token")].

Lemma token_pairing_witness :
  tokens_paired
    (snd (fst (exchange_code_for_token "code" fresh
                 (world_answering (answer 200 "{}" (Some token_reply)))))).
Proof.
  refine (proj1 (token_pairing fresh
                   (world_answering (answer 200 "{}" (Some token_reply))))
            "code" (Success token_reply) _
            (snd (exchange_code_for_token "code" fresh
                    (world_answering (answer 200 "{}" (Some token_reply)))))
            _ _).
  - vm_compute. reflexivity.
  - intros H. exfalso. apply H. reflexivity.
Defined.

(** ** Saving and loading (C4) *)

Lemma files_write_file f v w : files (write_file f v w) f = Doc v.
Proof. unfold write_file; simpl. rewrite String.eqb_refl. reflexivity. Qed.

(** Loading, into any session [c0], the file that [c] has just saved. *)
Lemma load_saved f c c0 w :
  (forall t, token_expires c = Some t -> DateTime.valid t = true) ->
  load_tokens f c0 (write_file f (token_document c) w)
  = (inr true,
     with_tokens c0 (access_token c) (refresh_token c)
       (match token_expires c with
        | Some t => Some t
        | None => token_expires c0
        end),
     write_file f (token_document c) w).
Proof.
  intros V. rewrite load_run, files_write_file. unfold token_document.
  cbv zeta.
  change (dict_get "access_token" _) with (access_token c).
  change (dict_get "refresh_token" _) with (refresh_token c).
  change (dict_get "expires" _) with
    (match token_expires c with
     | Some t => JStr (DateTime.isoformat t)
     | None => JNull
     end).
  destruct (token_expires c) as [t |]; [| reflexivity].
  rewrite DateTimeFacts.isoformat_truthy. unfold py_fromisoformat.
  rewrite (DateTimeFacts.fromisoformat_isoformat t (V t eq_refl)).
  reflexivity.
Qed.

(** C4.  On a writable file, [save_tokens] followed by [load_tokens]
    succeeds and gives back, in the same session, exactly the access token,
    refresh token and expiry that were saved, whatever well-formed
    timestamp the expiry is, microseconds included; an absent expiry is
    written as [null] and is absent again after the load.  Loaded into
    another session, the saved tokens replace that session's; a saved
    timestamp replaces its expiry too. *)
Theorem save_then_load f c w :
  writable w f = true ->
  (forall t, token_expires c = Some t -> DateTime.valid t = true) ->
  let w1 := write_file f (token_document c) w in
  save_tokens f c w = (inr true, c, w1) /\
  load_tokens f c w1 = (inr true, c, w1) /\
  (token_expires c = None ->
   lookup "expires" match token_document c with JObj d => d | _ => [] end
   = Some JNull) /\
  (forall c0 c1 b w2, load_tokens f c0 w1 = (b, c1, w2) ->
     b = inr true /\
     access_token c1 = access_token c /\
     refresh_token c1 = refresh_token c /\
     (forall t, token_expires c = Some t -> token_expires c1 = Some t) /\
     (token_expires c = None -> token_expires c1 = token_expires c0)).
Proof.
  intros W V w1. split; [| split; [| split]].
  - rewrite save_run, W. reflexivity.
  - unfold w1. rewrite (load_saved f c c w V).
    destruct c as [i s u a r [t |]]; reflexivity.
  - intros N. unfold token_document. rewrite N. reflexivity.
  - intros c0 c1 b w2. unfold w1. rewrite (load_saved f c c0 w V).
    intros H; inv H. repeat split.
    + intros t T. simpl. rewrite T. reflexivity.
    + intros N. simpl. rewrite N. reflexivity.
Qed.

Definition half_past : DateTime.datetime := DateTime.mk 2025 6 1 12 30 0 250.

Lemma save_then_load_witness :
  load_tokens "resideo_tokens.json"
    (session (JStr "token") (JStr "r") (Some half_past))
    (write_file "resideo_tokens.json"
       (token_document (session (JStr "token") (JStr "r") (Some half_past)))
       offline)
  = (inr true, session (JStr "token") (JStr "r") (Some half_past),
     write_file "resideo_tokens.json"
       (token_document (session (JStr "token") (JStr "r") (Some half_past)))
       offline).
Proof.
  refine (proj1 (proj2 (save_then_load "resideo_tokens.json"
    (session (JStr "token") (JStr "r") (Some half_past)) offline _ _))).
  - reflexivity.
  - intros t T. injection T as <-. reflexivity.
Defined.

(** ** Successful responses (C8) *)




(** ** Failed fetches (C7) *)

Lemma classify_failure out :
  (exists r d, out = Fault r d) \/
  (exists r, out = Responds r /\ is_error_status r = true) ->
  exists m, classify out = Error m.
Proof.
  intros [[r [d ->]] | [r [-> S]]]; unfold classify, error_of_response.
  - destruct r as [r |]; [destruct (json_body r) |]; eexists; reflexivity.
  - rewrite S. destruct (json_body r); eexists; reflexivity.
Qed.

(** C7 as stated fails for two operations: when the fetch reports an
    error, here "HTTP 500: oops", [set_fan_mode] and [set_temperature] do
    not hand that error on but answer with a fixed wording of their own. *)
Lemma set_fan_mode_rewords_failed_fetch :
  let c := session (JStr "token") JNull None in
  let w := world_answering (answer 500 "oops" None) in
  fst (fst (get_locations c w)) = inr (Error (HttpStatus 500 "oops")) /\
  fst (fst (get_all_devices c w)) = inr (Error (HttpStatus 500 "oops")) /\
  fst (fst (get_thermostats c w)) = inr [] /\
  fst (fst (set_fan_mode "D1" "auto" JNull c w))
  = inr (Error NoLocationInformation) /\
  fst (fst (set_temperature "D1" "Heat" JNull JNull JNull c w))
  = inr (Error NoLocationInformation) /\
  fst (fst (set_temperature "D1" "Heat" JNull JNull (JInt 11) c w))
  = inr (Error NoThermostatStatus).
Proof. repeat split; reflexivity. Qed.

(** C7, amended.  When the locations fetch fails, for want of a valid
    token, by a transport fault or by an HTTP error status, it reports an
    error dictionary; [get_thermostats] then returns the empty list and
    [get_all_devices] hands the same error on, while [set_temperature] and
    [set_fan_mode], which need the locations, replace it by "Could not get
    location information" or "Could not get current thermostat status".
    When the fetch does not report but raises, because the token check
    raised, none of them degrades: the exception leaves [get_thermostats]
    as it leaves the others. *)
Theorem get_thermostats_degrades c w :
  (forall ok c1 w1,
     _ensure_valid_token c w = (inr ok, c1, w1) ->
     ok = false \/
     (exists r d, net w1 (List.length (sent w1)) = Fault r d) \/
     (exists r, net w1 (List.length (sent w1)) = Responds r /\
                is_error_status r = true) ->
     exists m w2, get_locations c w = (inr (Error m), c1, w2)) /\
  (forall m c' w',
     get_locations c w = (inr (Error m), c', w') ->
     get_thermostats c w = (inr [], c', w') /\
     get_all_devices c w = (inr (Error m), c', w') /\
     (forall device_id mode heat cool location_id,
        set_temperature device_id mode heat cool location_id c w
        = (inr (Error (if is_none location_id then NoLocationInformation
                       else NoThermostatStatus)), c', w')) /\
     (forall device_id fan_mode,
        in_list (lower fan_mode) valid_modes = true ->
        set_fan_mode device_id fan_mode JNull c w
        = (inr (Error NoLocationInformation), c', w'))) /\
  (forall e c' w',
     _ensure_valid_token c w = (inl e, c', w') ->
     get_locations c w = (inl e, c', w') /\
     get_all_devices c w = (inl e, c', w') /\
     get_thermostats c w = (inl e, c', w') /\
     (forall device_id mode heat cool location_id,
        set_temperature device_id mode heat cool location_id c w
        = (inl e, c', w')) /\
     (forall device_id fan_mode,
        in_list (lower fan_mode) valid_modes = true ->
        set_fan_mode device_id fan_mode JNull c w = (inl e, c', w'))).
Proof.
  split; [| split].
  - intros ok c1 w1 T F. unfold get_locations.
    rewrite request_run, T. destruct ok.
    + destruct F as [F | F]; [discriminate F |].
      change (verb_of "GET") with (Some ("GET", false)). cbv iota.
      destruct (classify_failure _ F) as [m ->]. do 2 eexists. reflexivity.
    + do 2 eexists. reflexivity.
  - intros m c' w' L.
    assert (A : get_all_devices c w = (inr (Error m), c', w')).
    { unfold get_all_devices, bind. rewrite L. reflexivity. }
    split; [| split; [exact A | split]].
    + unfold get_thermostats, bind. rewrite A. reflexivity.
    + intros device_id mode heat cool location_id.
      unfold set_temperature, with_location.
      destruct (is_none location_id); unfold bind; rewrite L; reflexivity.
    + intros device_id fan_mode V. unfold set_fan_mode, with_location.
      rewrite V. cbn [negb is_none]. unfold bind. rewrite L. reflexivity.
  - intros e c' w' T.
    assert (L : get_locations c w = (inl e, c', w')).
    { unfold get_locations. rewrite request_run, T. reflexivity. }
    assert (A : get_all_devices c w = (inl e, c', w')).
    { unfold get_all_devices, bind. rewrite L. reflexivity. }
    split; [exact L |]. split; [exact A |]. split; [| split].
    + unfold get_thermostats, bind. rewrite A. reflexivity.
    + intros device_id mode heat cool location_id.
      unfold set_temperature, with_location.
      destruct (is_none location_id); unfold bind; rewrite L; reflexivity.
    + intros device_id fan_mode V. unfold set_fan_mode, with_location.
      rewrite V. cbn [negb is_none]. unfold bind. rewrite L. reflexivity.
Qed.

Lemma get_thermostats_degrades_witness :
  get_thermostats (session (JStr "token") JNull None) offline
  = (inr [], session (JStr "token") JNull None,
     snd (get_locations (session (JStr "token") JNull None) offline)).
Proof.
  refine (proj1 (proj1 (proj2 (get_thermostats_degrades
                                 (session (JStr "token") JNull None) offline))
                   (RequestFailed (RequestException None "connection refused"))
                   (session (JStr "token") JNull None)
                   (snd (get_locations (session (JStr "token") JNull None)
                                       offline)) _)).
  vm_compute. reflexivity.
Defined.

(** ** The location of a call *)




(** ** Fan mode (C9) *)







Lemma sends_get_locations :
  sends (fun rq => is_token_request rq \/
                   is_api_request "GET" Locations None rq) get_locations.
Proof.
  unfold get_locations.
  eapply sends_weaken; [| apply sends_request].
  intros rq [T | (verb & b & V & A)]; [left; exact T | right].
  inv V. exact A.
Qed.






Example set_fan_mode_auto :
  sent (snd (set_fan_mode "D1" "auto" (JInt 7)
               (session (JStr "token") JNull None)
               (world_answering (answer 200 "" None))))
  = [ApiRequest "POST" (Fan "D1" (JInt 7)) "&" "client" (JStr "token")
       (Some (JObj [("mode", JStr "Auto")]))].
Proof. reflexivity. Qed.

(** ** Locations and their devices *)

(** The devices embedded in a location: the list under [devices], none
    when the key is missing. *)
Definition devices_of (location : json) : list json :=
  match location with
  | JObj d =>
      match lookup "devices" d with
      | Some (JArr l) => l
      | _ => []
      end
  | _ => []
  end.

(** A location as the API sends it: an object whose [devices], when
    present, is a list. *)
Definition location_ok (location : json) : bool :=
  match location with
  | JObj d =>
      match lookup "devices" d with
      | Some (JArr _) => true
      | Some _ => false
      | None => true
      end
  | _ => false
  end.

Definition is_object (v : json) : bool :=
  match v with JObj _ => true | _ => false end.

Definition has_id (device_id : string) (device : json) : bool :=
  match device with
  | JObj d => eq_str (dict_get "deviceID" d) device_id
  | _ => false
  end.

Lemma location_items location :
  location_ok location = true ->
  (devices <-- py_get_default location "devices" (JArr []) ;; iter devices)
  = inr (devices_of location).
Proof.
  destruct location; try discriminate. unfold location_ok, devices_of.
  cbn [py_get_default ebind]. unfold get_default.
  destruct (lookup "devices" d) as [[] |]; try discriminate; reflexivity.
Qed.

(** *** Looking a thermostat up *)

Lemma has_id_truthy device_id device :
  has_id device_id device = true -> truthy device = true.
Proof.
  destruct device; try discriminate. destruct d; [discriminate | reflexivity].
Qed.

Lemma scan_devices_find device_id devices : forall target,
  forallb is_object devices = true ->
  scan_devices device_id devices target
  = inr (match find (has_id device_id) devices with
         | Some device => device
         | None => target
         end).
Proof.
  induction devices as [| device rest IH]; intros target; [reflexivity |].
  cbn [forallb]. rewrite andb_true_iff. intros [O R].
  destruct device; try discriminate O.
  cbn [scan_devices find has_id py_get py_get_default ebind].
  fold (dict_get "deviceID" d).
  destruct (eq_str (dict_get "deviceID" d) device_id); [reflexivity |].
  apply IH. exact R.
Qed.

Lemma find_app {A} (f : A -> bool) (l1 l2 : list A) :
  find f (l1 ++ l2)
  = match find f l1 with Some x => Some x | None => find f l2 end.
Proof.
  induction l1 as [| x l1 IH]; [reflexivity |]. cbn.
  destruct (f x); [reflexivity | exact IH].
Qed.

Lemma scan_locations_find device_id locations :
  forallb location_ok locations = true ->
  forallb is_object (flat_map devices_of locations) = true ->
  scan_locations device_id locations JNull
  = inr (match find (has_id device_id) (flat_map devices_of locations) with
         | Some device => device
         | None => JNull
         end).
Proof.
  induction locations as [| location rest IH]; [reflexivity |].
  cbn [forallb flat_map]. rewrite forallb_app, !andb_true_iff.
  intros [L R] [O OR].
  cbn [scan_locations].
  pose proof (location_items location L) as I. unfold ebind in I |- *.
  destruct (py_get_default location "devices" (JArr [])) as [e | devices];
    [discriminate I |].
  rewrite I, (scan_devices_find device_id _ JNull O), find_app.
  destruct (find (has_id device_id) (devices_of location)) as [device |] eqn:F.
  - apply find_some in F. rewrite (has_id_truthy device_id device (proj2 F)).
    reflexivity.
  - cbn [truthy]. apply IH; assumption.
Qed.

(** ** The settings body (C6) *)

Lemma lookup_setitem_same k v d : lookup k (setitem k v d) = Some v.
Proof.
  induction d as [| [k' v'] d IH]; simpl.
  - rewrite String.eqb_refl. reflexivity.
  - destruct (String.eqb k k') eqn:E; simpl; rewrite E; [reflexivity | exact IH].
Qed.

Lemma lookup_setitem_other k k' v d :
  k <> k' -> lookup k' (setitem k v d) = lookup k' d.
Proof.
  intros N. induction d as [| [k0 v0] d IH]; simpl.
  - destruct (String.eqb k' k) eqn:E; [| reflexivity].
    apply String.eqb_eq in E. congruence.
  - destruct (String.eqb k k0) eqn:E; simpl.
    + apply String.eqb_eq in E. subst k0.
      destruct (String.eqb k' k) eqn:E'; [| reflexivity].
      apply String.eqb_eq in E'. congruence.
    + rewrite IH. reflexivity.
Qed.

Lemma lookup_set_if_given_same k v d :
  lookup k (set_if_given k v d) = if is_none v then lookup k d else Some v.
Proof.
  unfold set_if_given. destruct (is_none v); [reflexivity |].
  apply lookup_setitem_same.
Qed.

Lemma lookup_set_if_given_other k k' v d :
  k <> k' -> lookup k' (set_if_given k v d) = lookup k' d.
Proof.
  intros N. unfold set_if_given. destruct (is_none v); [reflexivity |].
  apply lookup_setitem_other. exact N.
Qed.

(** The edits of [set_temperature] on a bag of values. *)
Definition edited (bag : dict) (mode : string) (heat cool : json) : dict :=
  setitem "thermostatSetpointStatus" (JStr "PermanentHold")
    (set_if_given "coolSetpoint" cool
      (set_if_given "heatSetpoint" heat
        (setitem "mode" (JStr mode) bag))).

Lemma changed_values_edited values mode heat cool body :
  changed_values values mode heat cool = inr body ->
  exists bag, values = JObj bag /\ body = JObj (edited bag mode heat cool).
Proof.
  destruct values; try discriminate. intros H; inv H.
  exists d. split; reflexivity.
Qed.

Lemma edited_lookups bag mode heat cool :
  lookup "mode" (edited bag mode heat cool) = Some (JStr mode) /\
  lookup "thermostatSetpointStatus" (edited bag mode heat cool)
    = Some (JStr "PermanentHold") /\
  lookup "heatSetpoint" (edited bag mode heat cool)
    = (if is_none heat then lookup "heatSetpoint" bag else Some heat) /\
  lookup "coolSetpoint" (edited bag mode heat cool)
    = (if is_none cool then lookup "coolSetpoint" bag else Some cool) /\
  (forall k, ~ In k ["mode"; "heatSetpoint"; "coolSetpoint";
                     "thermostatSetpointStatus"] ->
             lookup k (edited bag mode heat cool) = lookup k bag).
Proof.
  unfold edited. repeat split.
  - rewrite lookup_setitem_other by discriminate.
    rewrite !lookup_set_if_given_other by discriminate.
    apply lookup_setitem_same.
  - apply lookup_setitem_same.
  - rewrite lookup_setitem_other by discriminate.
    rewrite lookup_set_if_given_other by discriminate.
    rewrite lookup_set_if_given_same.
    rewrite lookup_setitem_other by discriminate. reflexivity.
  - rewrite lookup_setitem_other by discriminate.
    rewrite lookup_set_if_given_same.
    rewrite lookup_set_if_given_other by discriminate.
    rewrite lookup_setitem_other by discriminate. reflexivity.
  - intros k N. simpl in N.
    rewrite lookup_setitem_other by (intros E; apply N; auto).
    rewrite !lookup_set_if_given_other by (intros E; apply N; auto).
    apply lookup_setitem_other. intros E; apply N; auto.
Qed.

(** *** The copy and the original *)





(** *** The request that carries the body *)

(** The scenario of two locations, the first holding thermostat [D1]
    whose values are [{"mode": "Off"}]. *)
Definition two_locations : json :=
  JArr [JObj [("locationID", JInt 11);
              ("devices",
               JArr [JObj [("deviceID", JStr "D1");
                           ("deviceType", JStr "Thermostat");
                           ("changeableValues",
                            JObj [("mode", JStr "Off")])]])];
        JObj [("locationID", JInt 22); ("devices", JArr [])]].

Definition home : world :=
  world_answering (answer 200 "[...]" (Some two_locations)).

Definition owner : controller := session (JStr "token") JNull None.

Example set_temperature_scenario :
  sent (snd (set_temperature "D1" "Heat" (JInt 68) JNull JNull owner home))
  = [ApiRequest "POST" (Thermostat "D1" (JInt 11)) "&" "client" (JStr "token")
       (Some (JObj [("mode", JStr "Heat"); ("heatSetpoint", JInt 68);
                    ("thermostatSetpointStatus", JStr "PermanentHold")]));
     ApiRequest "GET" Locations "?" "client" (JStr "token") None;
     ApiRequest "GET" Locations "?" "client" (JStr "token") None].
Proof. reflexivity. Qed.




(** ** Returning rather than raising (C5) *)



(** A 2xx token reply that is not JSON: the decoding error is reported as
    an error dictionary where [requests] makes it a [RequestException], and
    is raised where it is a plain [ValueError]. *)
Example exchange_on_text_reply :
  let w flag :=
    mkWorld (fun _ => answer 200 "<html>" None) [] (fun _ => noon) 0
            (fun _ => NoFile) (fun _ => true) flag in
  fst (fst (exchange_code_for_token "code" fresh (w true)))
  = inr (Error (FailedExchange (JSONDecodeError true))) /\
  fst (fst (exchange_code_for_token "code" fresh (w false)))
  = inl (JSONDecodeError false).
Proof. split; reflexivity. Qed.



(** * Further properties of the class *)

(** ** The executor's request *)

Lemma verb_of_supported method :
  In (upper method) ["GET"; "POST"; "PUT"; "DELETE"] ->
  verb_of method
  = Some (upper method,
          negb (String.eqb (upper method) "GET"
                || String.eqb (upper method) "DELETE")).
Proof.
  unfold verb_of. simpl.
  intros [E | [E | [E | [E | []]]]]; rewrite <- E; reflexivity.
Qed.

Lemma verb_of_unsupported method :
  ~ In (upper method) ["GET"; "POST"; "PUT"; "DELETE"] ->
  verb_of method = None.
Proof.
  unfold verb_of. simpl. intros N.
  repeat match goal with
         | |- context [String.eqb (upper method) ?s] =>
             destruct (String.eqb_spec (upper method) s) as [E | _];
             [exfalso; apply N; rewrite E; auto |]
         end.
  reflexivity.
Qed.



(** X2.  A method that is none of GET, POST, PUT, DELETE is refused with
    the "Unsupported HTTP method" error after the token check, and no
    request is sent for it. *)
Theorem unsupported_method_sends_nothing method ep data c w c1 w1 :
  _ensure_valid_token c w = (inr true, c1, w1) ->
  ~ In (upper method) ["GET"; "POST"; "PUT"; "DELETE"] ->
  _make_api_request method ep data c w
  = (inr (Error (UnsupportedMethod method)), c1, w1).
Proof.
  intros T N. rewrite request_run, T, (verb_of_unsupported method N).
  reflexivity.
Qed.

Lemma unsupported_method_sends_nothing_witness :
  _make_api_request "PATCH" Locations None
                    (session (JStr "token") JNull None) offline
  = (inr (Error (UnsupportedMethod "PATCH")),
     session (JStr "token") JNull None, offline).
Proof.
  apply (unsupported_method_sends_nothing "PATCH" Locations None
           (session (JStr "token") JNull None) offline
           (session (JStr "token") JNull None) offline eq_refl).
  simpl. intros [E | [E | [E | [E | []]]]]; discriminate E.
Defined.

(** X3.  How the executor words a failed request: a failure that carries
    a response (an HTTP error status, or a fault with a response attached)
    is reported as "API Error" with the decoded body when the body is JSON
    and as "HTTP <status>: <text>" when it is not; a fault without response
    is reported as "Request failed". *)
Theorem executor_error_wording method ep data c w c1 w1 :
  _ensure_valid_token c w = (inr true, c1, w1) ->
  In (upper method) ["GET"; "POST"; "PUT"; "DELETE"] ->
  (forall d,
     net w1 (List.length (sent w1)) = Fault None d ->
     fst (fst (_make_api_request method ep data c w))
     = inr (Error (RequestFailed (RequestException None d)))) /\
  (forall r,
     (exists d, net w1 (List.length (sent w1)) = Fault (Some r) d) \/
     (net w1 (List.length (sent w1)) = Responds r /\
      400 <= status_code r < 600) ->
     (forall v, json_body r = Some v ->
        fst (fst (_make_api_request method ep data c w))
        = inr (Error (ApiError v))) /\
     (json_body r = None ->
        fst (fst (_make_api_request method ep data c w))
        = inr (Error (HttpStatus (status_code r) (text r))))).
Proof.
  intros T S. rewrite request_run, T, (verb_of_supported method S).
  cbn [fst]. split.
  - intros d F. rewrite F. reflexivity.
  - intros r F.
    assert (C : classify (net w1 (List.length (sent w1)))
                = error_of_response r).
    { destruct F as [[d F] | [F B]]; rewrite F; [reflexivity |].
      unfold classify, is_error_status.
      replace ((400 <=? status_code r) && (status_code r <? 600)) with true;
        [reflexivity |].
      symmetry. apply andb_true_iff. split;
        [apply Z.leb_le | apply Z.ltb_lt]; lia. }
    rewrite C. unfold error_of_response.
    split; [intros v J | intros J]; rewrite J; reflexivity.
Qed.

Lemma executor_error_wording_witness :
  fst (fst (_make_api_request "get" Locations None
              (session (JStr "token") JNull None)
              (world_answering (answer 404 "Not Found" None))))
  = inr (Error (HttpStatus 404 "Not Found")).
Proof.
  refine (proj2 (proj2 (executor_error_wording "get" Locations None
                   (session (JStr "token") JNull None)
                   (world_answering (answer 404 "Not Found" None))
                   (session (JStr "token") JNull None)
                   (world_answering (answer 404 "Not Found" None))
                   eq_refl (or_introl eq_refl))
                 (mkResponse 404 "Not Found" "Not Found" None)
                 (or_intror (conj eq_refl _))) eq_refl).
  simpl. lia.
Defined.

(** ** Token requests *)

Lemma sends_nothing {A} (m : M A) c w x c' w' :
  sends (fun _ => False) m -> m c w = (x, c', w') -> sent w' = sent w.
Proof.
  intros S R. destruct (S c w x c' w' R) as (added & E & F).
  destruct added as [| rq added]; [exact E |].
  inversion F as [| ? ? Absurd]. destruct Absurd.
Qed.

Lemma sent_read_clock w : sent (snd (read_clock w)) = sent w.
Proof. reflexivity. Qed.

(** X4.  [exchange_code_for_token] sends exactly one request, whatever
    comes of it: the authorization-code grant, with the code and the
    session's redirect URI, under the client's credentials.  When it
    returns success, the data is the decoded reply, a JSON object; the
    access and refresh tokens are the reply's (absent ones become [None],
    replacing what was held) and the expiry is the clock reading plus the
    reply's [expires_in] seconds, 3600 when the reply has none. *)
Theorem exchange_request_and_tokens code c w x c' w' :
  exchange_code_for_token code c w = (x, c', w') ->
  sent w' =
    TokenRequest (client_id c) (client_secret c)
      [("grant_type", JStr "authorization_code"); ("code", JStr code);
       ("redirect_uri", JStr (redirect_uri c))]
    :: sent w /\
  (forall data, x = inr (Success data) ->
     exists r d t,
       net w (List.length (sent w)) = Responds r /\
       json_body r = Some data /\ data = JObj d /\
       access_token c' = dict_get "access_token" d /\
       refresh_token c' = dict_get "refresh_token" d /\
       expiry (clock w (ticks w)) d = inr t /\
       token_expires c' = Some t).
Proof.
  rewrite exchange_run. cbv zeta. unfold token_form_exchange.
  destruct (net w (List.length (sent w))) as [carried d | r].
  { intros H; inv H. split; [reflexivity | discriminate]. }
  destruct ((400 <=? status_code r) && (status_code r <? 600)).
  { intros H; inv H. split; [reflexivity | discriminate]. }
  destruct (json_body r) as [td |] eqn:J.
  - destruct (store_exchanged td c _) as [[[e | []] c1] w1] eqn:S;
      intros H; inv H;
      pose proof (sends_nothing _ _ _ _ _ _
                    (sends_store_exchanged (fun _ => False) td) S) as N.
    + split; [exact N | discriminate].
    + split; [exact N |]. intros data D. inv D.
      destruct (store_exchanged_returns _ _ _ _ _ _ S)
        as (d & t & -> & Ex & -> & _).
      exists r, d, t. repeat split; try reflexivity; assumption.
  - destruct (json_error_is_request_exception w); intros H; inv H;
      (split; [reflexivity | discriminate]).
Qed.

Lemma exchange_request_and_tokens_witness :
  sent (snd (exchange_code_for_token "code" fresh offline))
  = [TokenRequest "client" "secret"
       [("grant_type", JStr "authorization_code"); ("code", JStr "code");
        ("redirect_uri", JStr "http://localhost:8080/callback")]].
Proof.
  exact (proj1 (exchange_request_and_tokens "code" fresh offline
                  (fst (fst (exchange_code_for_token "code" fresh offline)))
                  (snd (fst (exchange_code_for_token "code" fresh offline)))
                  (snd (exchange_code_for_token "code" fresh offline))
                  eq_refl)).
Defined.

(** X5.  A successful refresh replaces the access token by the reply's
    (by [None] when the reply has none), replaces the refresh token only
    when the reply carries the key [refresh_token] and keeps the held one
    otherwise, and sets the expiry from the reply's [expires_in] (3600 when
    absent); the client's credentials are unchanged. *)
Theorem refresh_rotates_optionally c w x c' w' :
  refresh_access_token c w = (inr x, c', w') ->
  get_success x = true ->
  exists r d t,
    net w (List.length (sent w)) = Responds r /\
    json_body r = Some (JObj d) /\
    access_token c' = dict_get "access_token" d /\
    refresh_token c' = match lookup "refresh_token" d with
                       | Some v => v
                       | None => refresh_token c
                       end /\
    expiry (clock w (ticks w)) d = inr t /\
    token_expires c' = Some t /\
    client_id c' = client_id c /\ client_secret c' = client_secret c /\
    redirect_uri c' = redirect_uri c.
Proof.
  rewrite refresh_run.
  destruct (negb (truthy (refresh_token c)));
    [intros H; inv H; discriminate |].
  cbv zeta.
  destruct (net w (List.length (sent w))) as [carried d | r];
    [intros H; inv H; discriminate |].
  destruct ((400 <=? status_code r) && (status_code r <? 600));
    [intros H; inv H; discriminate |].
  destruct (json_body r) as [td |] eqn:J.
  - destruct (store_refreshed td c _) as [[[e | []] c1] w1] eqn:S;
      [discriminate |].
    intros H; inv H. intros _.
    destruct (store_refreshed_returns _ _ _ _ _ _ S)
      as (d & t & -> & Ex & -> & _).
    exists r, d, t. repeat split; try reflexivity; assumption.
  - destruct (json_error_is_request_exception w);
      [intros H; inv H; discriminate | discriminate].
Qed.

Definition rotating_reply : json :=
  JObj [("access_token", JStr "fresh"); ("expires_in", JInt 1800)].

Lemma refresh_rotates_optionally_witness :
  refresh_token
    (snd (fst (refresh_access_token
                 (session (JStr "stale") (JStr "keep") None)
                 (world_answering (answer 200 "{...}"
                                          (Some rotating_reply))))))
  = JStr "keep".
Proof.
  destruct (refresh_rotates_optionally
              (session (JStr "stale") (JStr "keep") None)
              (world_answering (answer 200 "{...}" (Some rotating_reply)))
              (SuccessMessage "Token refreshed successfully")
              (snd (fst (refresh_access_token
                           (session (JStr "stale") (JStr "keep") None)
                           (world_answering (answer 200 "{...}"
                                                    (Some rotating_reply))))))
              (snd (refresh_access_token
                      (session (JStr "stale") (JStr "keep") None)
                      (world_answering (answer 200 "{...}"
                                               (Some rotating_reply)))))
              eq_refl eq_refl)
    as (r & d & t & N & J & _ & R & _).
  injection N as <-. injection J as <-. exact R.
Defined.

(** X6.  The token check sends nothing when no token is held, when no
    expiry is recorded, when the clock reads earlier than five minutes
    before the expiry, or when no refresh token is held; once inside the
    margin with a refresh token it sends exactly one request, the
    refresh-token grant carrying the held refresh token, whatever comes of
    it. *)
Theorem token_check_traffic c w x c' w' :
  _ensure_valid_token c w = (x, c', w') ->
  (sent w' = sent w \/ sent w' = token_form_refresh c :: sent w) /\
  (truthy (access_token c) = false \/ token_expires c = None \/
   truthy (refresh_token c) = false \/
   (exists expires limit,
      token_expires c = Some expires /\
      DateTime.sub (R := response) expires FIVE_MINUTES = inr limit /\
      DateTime.lt (clock w (ticks w)) limit = true) ->
   sent w' = sent w) /\
  (forall expires limit,
     truthy (access_token c) = true -> truthy (refresh_token c) = true ->
     token_expires c = Some expires ->
     DateTime.sub (R := response) expires FIVE_MINUTES = inr limit ->
     DateTime.ge (clock w (ticks w)) limit = true ->
     sent w' = token_form_refresh c :: sent w).
Proof.
  assert (R : forall w0 y c0 w0',
            refresh_access_token c w0 = (y, c0, w0') ->
            (truthy (refresh_token c) = false -> sent w0' = sent w0) /\
            (truthy (refresh_token c) = true ->
             sent w0' = token_form_refresh c :: sent w0)).
  { intros w0 y c0 w0'. rewrite refresh_run.
    destruct (truthy (refresh_token c)); cbn [negb].
    - intros H. split; [discriminate |]. intros _. revert H. cbv zeta.
      destruct (net w0 (List.length (sent w0))) as [carried d | r];
        [intros H; inv H; reflexivity |].
      destruct ((400 <=? status_code r) && (status_code r <? 600));
        [intros H; inv H; reflexivity |].
      destruct (json_body r) as [td |].
      + destruct (store_refreshed td c _) as [[[e | []] c1] w1] eqn:S;
          intros H; inv H;
          exact (sends_nothing _ _ _ _ _ _
                   (sends_store_refreshed (fun _ => False) td) S).
      + destruct (json_error_is_request_exception w0); intros H; inv H;
          reflexivity.
    - intros H; inv H. split; [reflexivity | discriminate]. }
  rewrite ensure_run. unfold DateTime.ge.
  destruct (truthy (access_token c)) eqn:A; cbn [negb].
  2:{ intros H; inv H. repeat split; auto; discriminate. }
  destruct (token_expires c) as [expires |] eqn:X.
  2:{ intros H; inv H. repeat split; auto; discriminate. }
  cbv zeta.
  destruct (DateTime.sub expires FIVE_MINUTES) as [e | limit] eqn:S.
  { intros H; inv H. split; [left; reflexivity |].
    split; [reflexivity |].
    intros expires' limit' _ _ E S'. inv E. rewrite S in S'. discriminate S'. }
  destruct (DateTime.lt (clock w (ticks w)) limit) eqn:L; cbn [negb].
  { intros H; inv H. split; [left; reflexivity |].
    split; [reflexivity |].
    intros expires' limit' _ _ E S' G. inv E. rewrite S in S'. inv S'.
    rewrite L in G. discriminate G. }
  destruct (refresh_access_token c (snd (read_clock w)))
    as [[[e | r] c1] w1] eqn:Rf;
    intros H; inv H;
    destruct (R _ _ _ _ Rf) as [Rn Ry];
    rewrite sent_read_clock in Rn, Ry;
    (split; [destruct (truthy (refresh_token c));
               [right; apply Ry; reflexivity | left; apply Rn; reflexivity] |];
     split;
     [intros [F | [F | [F | (expires' & limit' & E & S' & L')]]];
        [discriminate F | discriminate F | exact (Rn F) |
         inv E; rewrite S in S'; inv S'; rewrite L in L'; discriminate L']
     | intros expires' limit' _ T _ _ _; exact (Ry T)]).
Qed.

Lemma token_check_traffic_witness :
  sent (snd (_ensure_valid_token
               (session (JStr "token") (JStr "r")
                        (Some (DateTime.mk 2025 6 1 12 3 0 0)))
               offline))
  = [token_form_refresh (session (JStr "token") (JStr "r")
                                 (Some (DateTime.mk 2025 6 1 12 3 0 0)))].
Proof.
  refine (proj2 (proj2 (token_check_traffic
            (session (JStr "token") (JStr "r")
                     (Some (DateTime.mk 2025 6 1 12 3 0 0)))
            offline _ _ _ eq_refl))
            (DateTime.mk 2025 6 1 12 3 0 0) (DateTime.mk 2025 6 1 11 58 0 0)
            eq_refl eq_refl eq_refl eq_refl eq_refl).
Defined.

(** ** The token check inside an operation *)






(** ** Devices and thermostats *)

Definition is_thermostat (device : json) : bool :=
  match device with
  | JObj d =>
      eq_str (dict_get "deviceType" d) "Thermostat"
      || eq_str (dict_get "deviceClass" d) "Thermostat"
  | _ => false
  end.

Lemma collect_devices_flat locations : forall all_devices,
  forallb location_ok locations = true ->
  collect_devices locations all_devices
  = inr (all_devices ++ flat_map devices_of locations)%list.
Proof.
  induction locations as [| location rest IH]; intros all_devices.
  - intros _. cbn. rewrite app_nil_r. reflexivity.
  - cbn [forallb]. rewrite andb_true_iff. intros [L R].
    cbn [collect_devices flat_map].
    pose proof (location_items location L) as I. unfold ebind in I |- *.
    destruct (py_get_default location "devices" (JArr [])) as [e | devices];
      [discriminate I |].
    rewrite I, (IH _ R), app_assoc. reflexivity.
Qed.

Lemma filter_thermostats_filter devices :
  forallb is_object devices = true ->
  filter_thermostats devices = inr (filter is_thermostat devices).
Proof.
  induction devices as [| device rest IH]; [reflexivity |].
  cbn [forallb]. rewrite andb_true_iff. intros [O R].
  destruct device; try discriminate O.
  cbn [filter_thermostats filter is_thermostat py_get py_get_default ebind].
  rewrite (IH R). fold (dict_get "deviceType" d).
  fold (dict_get "deviceClass" d).
  destruct (eq_str (dict_get "deviceType" d) "Thermostat");
    cbn [orb ebind]; reflexivity.
Qed.

(** X9.  When the locations fetch succeeds with a list of locations,
    [get_all_devices] returns, as one list, the devices of each location in
    order, location by location; a location without [devices] contributes
    none.  [get_thermostats] returns of these, in the same order, exactly
    the devices whose [deviceType] or [deviceClass] is the string
    [Thermostat]. *)
Theorem devices_are_flattened_and_filtered c w locations c1 w1 :
  get_locations c w = (inr (Success (JArr locations)), c1, w1) ->
  forallb location_ok locations = true ->
  get_all_devices c w
  = (inr (Success (JArr (flat_map devices_of locations))), c1, w1) /\
  (forallb is_object (flat_map devices_of locations) = true ->
   get_thermostats c w
   = (inr (filter is_thermostat (flat_map devices_of locations)), c1, w1)).
Proof.
  intros L Ok.
  assert (D : get_all_devices c w
              = (inr (Success (JArr (flat_map devices_of locations))),
                 c1, w1)).
  { unfold get_all_devices, bind. rewrite L. cbn.
    rewrite (collect_devices_flat locations [] Ok). reflexivity. }
  split; [exact D |]. intros O.
  unfold get_thermostats, bind. rewrite D. cbn.
  rewrite (filter_thermostats_filter _ O). reflexivity.
Qed.

Definition sample_locations : list json :=
  [JObj [("locationID", JInt 11);
         ("devices",
          JArr [JObj [("deviceID", JStr "D1");
                      ("deviceType", JStr "Thermostat")];
                JObj [("deviceID", JStr "C1");
                      ("deviceClass", JStr "Camera")]])];
   JObj [("locationID", JInt 22)];
   JObj [("locationID", JInt 33);
         ("devices",
          JArr [JObj [("deviceID", JStr "D2");
                      ("deviceClass", JStr "Thermostat")]])]].

Definition estate : world :=
  world_answering (answer 200 "[...]" (Some (JArr sample_locations))).

Lemma devices_are_flattened_and_filtered_witness :
  get_thermostats owner estate
  = (inr [JObj [("deviceID", JStr "D1"); ("deviceType", JStr "Thermostat")];
          JObj [("deviceID", JStr "D2"); ("deviceClass", JStr "Thermostat")]],
     owner, snd (get_locations owner estate)).
Proof.
  exact (proj2 (devices_are_flattened_and_filtered owner estate
                  sample_locations owner (snd (get_locations owner estate))
                  eq_refl eq_refl) eq_refl).
Defined.

(** X10.  A successful fetch whose payload is not a list: the empty
    object, which stands for an empty body, gives an empty device list and
    no thermostats; any other object, such as the [response_text] wrapper
    of a body that is not JSON, makes [get_all_devices] and
    [get_thermostats] raise [AttributeError] instead of returning. *)
Theorem devices_of_object_payload c w d c1 w1 :
  get_locations c w = (inr (Success (JObj d)), c1, w1) ->
  (d = [] ->
   get_all_devices c w = (inr (Success (JArr [])), c1, w1) /\
   get_thermostats c w = (inr [], c1, w1)) /\
  (d <> [] ->
   get_all_devices c w = (inl AttributeError, c1, w1) /\
   get_thermostats c w = (inl AttributeError, c1, w1)).
Proof.
  intros L. split.
  - intros ->.
    assert (D : get_all_devices c w = (inr (Success (JArr [])), c1, w1)).
    { unfold get_all_devices, bind. rewrite L. reflexivity. }
    split; [exact D |]. unfold get_thermostats, bind. rewrite D. reflexivity.
  - intros N. destruct d as [| [k v] d]; [contradiction |].
    assert (D : get_all_devices c w = (inl AttributeError, c1, w1)).
    { unfold get_all_devices, bind. rewrite L. reflexivity. }
    split; [exact D |]. unfold get_thermostats, bind. rewrite D. reflexivity.
Qed.

Lemma devices_of_object_payload_witness :
  get_thermostats owner (world_answering (answer 200 "<html>" None))
  = (inl AttributeError, owner,
     snd (get_locations owner (world_answering (answer 200 "<html>" None)))).
Proof.
  refine (proj2 (proj2 (devices_of_object_payload owner
            (world_answering (answer 200 "<html>" None))
            [("response_text", JStr "<html>")] owner
            (snd (get_locations owner
                    (world_answering (answer 200 "<html>" None))))
            eq_refl) _)).
  discriminate.
Defined.

(** X11.  Given a location id, [set_temperature] looks the device up in
    the fetched locations in order, location by location, and takes the
    first device whose [deviceID] is the requested one.  When there is none
    it answers "Thermostat <id> not found" and sends nothing further; when
    there is one it goes on as [set_thermostat_settings] with that device's
    values, edited, even if a later device carries the same id. *)
Theorem set_temperature_first_match device_id mode heat cool location_id
  c w locations c1 w1 :
  is_none location_id = false ->
  get_locations c w = (inr (Success (JArr locations)), c1, w1) ->
  forallb location_ok locations = true ->
  forallb is_object (flat_map devices_of locations) = true ->
  (find (has_id device_id) (flat_map devices_of locations) = None ->
   set_temperature device_id mode heat cool location_id c w
   = (inr (Error (ThermostatNotFound device_id)), c1, w1)) /\
  (forall device bag,
     find (has_id device_id) (flat_map devices_of locations) = Some device ->
     py_get_default device "changeableValues" (JObj []) = inr (JObj bag) ->
     set_temperature device_id mode heat cool location_id c w
     = set_thermostat_settings device_id location_id
         (JObj (edited bag mode heat cool)) c1 w1).
Proof.
  intros N L Ok O.
  assert (Eq : set_temperature device_id mode heat cool location_id c w
    = (let target :=
         match find (has_id device_id) (flat_map devices_of locations) with
         | Some device => device
         | None => JNull
         end in
       if negb (truthy target)
       then ret (Error (ThermostatNotFound device_id))
       else
         values <- lift (py_get_default target "changeableValues"
                                        (JObj [])) ;;
         current_changeable_values <-
           lift (changed_values values mode heat cool) ;;
         set_thermostat_settings device_id location_id
                                 current_changeable_values) c1 w1).
  { unfold set_temperature, with_location. rewrite N.
    unfold bind at 1. rewrite L. cbn [get_success negb].
    unfold bind at 1. cbn [lift data_of].
    unfold bind at 1. cbn [lift iter].
    unfold bind at 1. unfold lift at 1.
    rewrite (scan_locations_find device_id locations Ok O). reflexivity. }
  rewrite Eq. cbv zeta. split.
  - intros F. rewrite F. reflexivity.
  - intros device bag F V. rewrite F.
    apply find_some in F.
    rewrite (has_id_truthy device_id device (proj2 F)). cbn [negb].
    unfold bind at 1. unfold lift at 1. rewrite V.
    unfold bind at 1. reflexivity.
Qed.

Lemma set_temperature_first_match_witness :
  set_temperature "D9" "Heat" JNull JNull (JInt 11) owner estate
  = (inr (Error (ThermostatNotFound "D9")), owner,
     snd (get_locations owner estate)).
Proof.
  exact (proj1 (set_temperature_first_match "D9" "Heat" JNull JNull (JInt 11)
                  owner estate sample_locations owner
                  (snd (get_locations owner estate))
                  eq_refl eq_refl eq_refl eq_refl) eq_refl).
Defined.



(** ** Editing twice *)

Lemma setitem_held k v d : lookup k d = Some v -> setitem k v d = d.
Proof.
  induction d as [| [k' v'] d IH]; [discriminate |]. cbn.
  destruct (String.eqb k k'); [intros H; inv H; reflexivity |].
  intros H. rewrite (IH H). reflexivity.
Qed.

Lemma set_if_given_held k v d :
  lookup k d = (if is_none v then lookup k d else Some v) ->
  set_if_given k v d = d.
Proof.
  unfold set_if_given. destruct (is_none v); [reflexivity |].
  apply setitem_held.
Qed.

Lemma setitem_keys k v d :
  map fst (setitem k v d)
  = if existsb (String.eqb k) (map fst d) then map fst d
    else (map fst d ++ [k])%list.
Proof.
  induction d as [| [k' v'] d IH]; [reflexivity |]. cbn.
  destruct (String.eqb k k'); cbn; [reflexivity |].
  rewrite IH. destruct (existsb (String.eqb k) (map fst d)); reflexivity.
Qed.

Lemma setitem_keeps_keys k v d :
  exists extra, map fst (setitem k v d) = (map fst d ++ extra)%list.
Proof.
  rewrite setitem_keys. destruct (existsb _ _);
    [exists []; rewrite app_nil_r | exists [k]]; reflexivity.
Qed.

Lemma set_if_given_keeps_keys k v d :
  exists extra, map fst (set_if_given k v d) = (map fst d ++ extra)%list.
Proof.
  unfold set_if_given. destruct (is_none v);
    [exists []; rewrite app_nil_r; reflexivity | apply setitem_keeps_keys].
Qed.

(** X13.  The body [set_temperature] builds keeps every key of the
    device's values in its place and adds the missing ones at the end; and
    building it again from the result, with the same arguments, changes
    nothing: the edit is idempotent. *)
Theorem changed_values_idempotent values mode heat cool body :
  changed_values values mode heat cool = inr body ->
  changed_values body mode heat cool = inr body /\
  exists bag edits extra,
    values = JObj bag /\ body = JObj edits /\
    map fst edits = (map fst bag ++ extra)%list.
Proof.
  intros H. destruct (changed_values_edited _ _ _ _ _ H) as (bag & -> & ->).
  destruct (edited_lookups bag mode heat cool) as (M & S & Ht & Cl & _).
  split.
  - cbn [changed_values]. do 2 f_equal.
    set (e := edited bag mode heat cool) in *.
    rewrite (setitem_held "mode" (JStr mode) e M).
    rewrite (set_if_given_held "heatSetpoint" heat e)
      by (rewrite Ht; destruct (is_none heat); reflexivity).
    rewrite (set_if_given_held "coolSetpoint" cool e)
      by (rewrite Cl; destruct (is_none cool); reflexivity).
    apply setitem_held. exact S.
  - exists bag, (edited bag mode heat cool). unfold edited.
    destruct (setitem_keeps_keys "mode" (JStr mode) bag) as [x1 E1].
    destruct (set_if_given_keeps_keys "heatSetpoint" heat
                (setitem "mode" (JStr mode) bag)) as [x2 E2].
    destruct (set_if_given_keeps_keys "coolSetpoint" cool
                (set_if_given "heatSetpoint" heat
                   (setitem "mode" (JStr mode) bag))) as [x3 E3].
    destruct (setitem_keeps_keys "thermostatSetpointStatus"
                (JStr "PermanentHold")
                (set_if_given "coolSetpoint" cool
                   (set_if_given "heatSetpoint" heat
                      (setitem "mode" (JStr mode) bag)))) as [x4 E4].
    exists (x1 ++ x2 ++ x3 ++ x4)%list.
    split; [reflexivity |]. split; [reflexivity |].
    rewrite E4, E3, E2, E1, <- !app_assoc. reflexivity.
Qed.

Lemma changed_values_idempotent_witness :
  changed_values
    (JObj [("mode", JStr "Heat"); ("heatSetpoint", JInt 68);
           ("thermostatSetpointStatus", JStr "PermanentHold")])
    "Heat" (JInt 68) JNull
  = inr (JObj [("mode", JStr "Heat"); ("heatSetpoint", JInt 68);
               ("thermostatSetpointStatus", JStr "PermanentHold")]).
Proof.
  exact (proj1 (changed_values_idempotent
                  (JObj [("mode", JStr "Off")]) "Heat" (JInt 68) JNull
                  (JObj [("mode", JStr "Heat"); ("heatSetpoint", JInt 68);
                         ("thermostatSetpointStatus", JStr "PermanentHold")])
                  eq_refl)).
Defined.

(** ** What every operation preserves *)

Section Preserved.

(** A relation between the state before and after, closed under
    composition and kept by each elementary step. *)
Variable R : controller * world -> controller * world -> Prop.

Hypothesis R_refl : forall s, R s s.
Hypothesis R_trans : forall s1 s2 s3, R s1 s2 -> R s2 s3 -> R s1 s3.

Definition keeps {A} (m : M A) : Prop :=
  forall c w x c' w', m c w = (x, c', w') -> R (c, w) (c', w').

Hypothesis R_access : forall v, keeps (set_access_token v).
Hypothesis R_refresh : forall v, keeps (set_refresh_token v).
Hypothesis R_expires : forall t, keeps (set_token_expires t).
Hypothesis R_now : keeps datetime_now.
Hypothesis R_http : forall rq, keeps (http rq).

Lemma keeps_still {A} (m : M A) :
  (forall c w, snd (fst (m c w)) = c /\ snd (m c w) = w) -> keeps m.
Proof.
  intros S c w x c' w' H. destruct (S c w) as [Sc Sw].
  rewrite H in Sc, Sw. cbn in Sc, Sw. subst. apply R_refl.
Qed.

Lemma keeps_ret {A} (a : A) : keeps (ret a).
Proof. apply keeps_still. intros; split; reflexivity. Qed.

Lemma keeps_raise {A} e : keeps (@raise A e).
Proof. apply keeps_still. intros; split; reflexivity. Qed.

Lemma keeps_lift {A} (m : E A) : keeps (lift m).
Proof. apply keeps_still. intros; split; reflexivity. Qed.

Lemma keeps_self : keeps self.
Proof. apply keeps_still. intros; split; reflexivity. Qed.

Lemma keeps_raise_for_status r : keeps (raise_for_status r).
Proof.
  unfold raise_for_status.
  destruct ((400 <=? status_code r) && (status_code r <? 600));
    [apply keeps_raise | apply keeps_ret].
Qed.

Lemma keeps_response_json r : keeps (response_json r).
Proof.
  apply keeps_still. intros c w. unfold response_json.
  destruct (json_body r); split; reflexivity.
Qed.

Lemma keeps_load_file f : keeps (load_file f).
Proof.
  apply keeps_still. intros c w. unfold load_file.
  destruct (files w f); split; reflexivity.
Qed.

Lemma keeps_bind {A B} (m : M A) (k : A -> M B) :
  keeps m -> (forall a, keeps (k a)) -> keeps (bind m k).
Proof.
  intros Hm Hk c w x c' w'. unfold bind.
  destruct (m c w) as [[[e | a] c1] w1] eqn:Rn.
  - intros H; inv H. exact (Hm _ _ _ _ _ Rn).
  - intros H. eapply R_trans; [exact (Hm _ _ _ _ _ Rn) |].
    exact (Hk a _ _ _ _ _ H).
Qed.

Lemma keeps_try_except {A} (body : M A) catches handler :
  keeps body -> (forall e, keeps (handler e)) ->
  keeps (try_except body catches handler).
Proof.
  intros Hb Hh c w x c' w'. unfold try_except.
  destruct (body c w) as [[[e | a] c1] w1] eqn:Rn.
  - destruct (catches e).
    + intros H. eapply R_trans; [exact (Hb _ _ _ _ _ Rn) |].
      exact (Hh e _ _ _ _ _ H).
    + intros H; inv H. exact (Hb _ _ _ _ _ Rn).
  - intros H; inv H. exact (Hb _ _ _ _ _ Rn).
Qed.

Ltac keep :=
  lazymatch goal with
  | |- keeps (ret _) => apply keeps_ret
  | |- keeps (raise _) => apply keeps_raise
  | |- keeps (lift _) => apply keeps_lift
  | |- keeps self => apply keeps_self
  | |- keeps (set_access_token _) => apply R_access
  | |- keeps (set_refresh_token _) => apply R_refresh
  | |- keeps (set_token_expires _) => apply R_expires
  | |- keeps datetime_now => apply R_now
  | |- keeps (http _) => apply R_http
  | |- keeps (raise_for_status _) => apply keeps_raise_for_status
  | |- keeps (response_json _) => apply keeps_response_json
  | |- keeps (load_file _) => apply keeps_load_file
  | |- keeps (bind _ _) => apply keeps_bind; [| intros ?]
  | |- keeps (try_except _ _ _) => apply keeps_try_except; [| intros ?]
  | |- keeps (if ?b then _ else _) => destruct b
  | |- keeps (match ?x with _ => _ end) => destruct x
  end.

Lemma keeps_exchange code : keeps (exchange_code_for_token code).
Proof. unfold exchange_code_for_token, store_exchanged. repeat keep. Qed.

Lemma keeps_refresh : keeps refresh_access_token.
Proof. unfold refresh_access_token, store_refreshed. repeat keep. Qed.

Lemma keeps_ensure : keeps _ensure_valid_token.
Proof.
  unfold _ensure_valid_token. repeat keep; apply keeps_refresh.
Qed.

Lemma keeps_request method ep data :
  keeps (_make_api_request method ep data).
Proof.
  unfold _make_api_request. keep; [apply keeps_ensure |]. repeat keep.
Qed.

Lemma keeps_with_location location_id k :
  (forall l, keeps (k l)) -> keeps (with_location location_id k).
Proof.
  intros K. unfold with_location, get_locations.
  keep; [| apply K]. keep; [apply keeps_request |]. repeat keep. apply K.
Qed.

Lemma keeps_get_all_devices : keeps get_all_devices.
Proof.
  unfold get_all_devices, get_locations.
  keep; [apply keeps_request |]. repeat keep.
Qed.

Lemma keeps_get_thermostats : keeps get_thermostats.
Proof.
  unfold get_thermostats. keep; [apply keeps_get_all_devices |].
  repeat keep.
Qed.

Lemma keeps_set_temperature device_id mode heat cool location_id :
  keeps (set_temperature device_id mode heat cool location_id).
Proof.
  unfold set_temperature. apply keeps_with_location. intros l.
  unfold get_locations, set_thermostat_settings.
  keep; [apply keeps_request |].
  repeat (keep; try apply keeps_request).
Qed.

Lemma keeps_set_fan_mode device_id fan_mode location_id :
  keeps (set_fan_mode device_id fan_mode location_id).
Proof.
  unfold set_fan_mode. keep; [keep |].
  apply keeps_with_location. intros l. apply keeps_request.
Qed.

Lemma keeps_load_tokens f : keeps (load_tokens f).
Proof. unfold load_tokens. repeat keep. Qed.

End Preserved.

(** Client credentials and redirect URI unchanged, a recorded expiry still
    recorded, the files and their permissions untouched. *)
Definition stable (s s' : controller * world) : Prop :=
  client_id (fst s') = client_id (fst s) /\
  client_secret (fst s') = client_secret (fst s) /\
  redirect_uri (fst s') = redirect_uri (fst s) /\
  (token_expires (fst s) <> None -> token_expires (fst s') <> None) /\
  files (snd s') = files (snd s) /\
  writable (snd s') = writable (snd s).

Lemma stable_refl s : stable s s.
Proof. unfold stable. repeat split; trivial. Qed.

Lemma stable_trans s1 s2 s3 : stable s1 s2 -> stable s2 s3 -> stable s1 s3.
Proof.
  unfold stable.
  intros (A1 & B1 & C1 & D1 & E1 & F1) (A2 & B2 & C2 & D2 & E2 & F2).
  repeat split; try congruence. auto.
Qed.

Lemma stable_step {A} (m : M A) :
  (forall c w, stable (c, w) (snd (fst (m c w)), snd (m c w))) ->
  keeps stable m.
Proof.
  intros S c w x c' w' H. specialize (S c w). rewrite H in S. exact S.
Qed.

Lemma stable_http rq : keeps stable (http rq).
Proof.
  apply stable_step. intros c w. unfold http, send.
  destruct (net w (List.length (sent w))); unfold stable; cbn;
    repeat split; trivial.
Qed.

Lemma stable_set_token_expires t : keeps stable (set_token_expires t).
Proof.
  apply stable_step. intros c w. unfold stable; cbn.
  repeat split; trivial. discriminate.
Qed.

(** X14.  No operation of the class other than [save_tokens] ever
    changes the client id, the client secret or the redirect URI, clears an
    expiry once one is recorded, or touches a file: whatever they return or
    raise, token exchange and refresh, the token check, the executor, the
    location, device and thermostat operations and [load_tokens] leave
    these as they were. *)
Theorem operations_keep_credentials_and_files :
  (forall code, keeps stable (exchange_code_for_token code)) /\
  keeps stable refresh_access_token /\
  keeps stable _ensure_valid_token /\
  (forall method ep data, keeps stable (_make_api_request method ep data)) /\
  keeps stable get_locations /\
  keeps stable get_all_devices /\
  keeps stable get_thermostats /\
  (forall device_id location_id,
     keeps stable (get_thermostat_status device_id location_id)) /\
  (forall device_id location_id settings,
     keeps stable (set_thermostat_settings device_id location_id settings)) /\
  (forall device_id mode heat cool location_id,
     keeps stable (set_temperature device_id mode heat cool location_id)) /\
  (forall device_id fan_mode location_id,
     keeps stable (set_fan_mode device_id fan_mode location_id)) /\
  (forall f, keeps stable (load_tokens f)).
Proof.
  assert (A : forall v, keeps stable (set_access_token v))
    by (intros v; apply stable_step; intros; unfold stable; cbn;
        repeat split; trivial).
  assert (B : forall v, keeps stable (set_refresh_token v))
    by (intros v; apply stable_step; intros; unfold stable; cbn;
        repeat split; trivial).
  assert (N : keeps stable datetime_now)
    by (apply stable_step; intros; unfold stable; cbn; repeat split; trivial).
  pose proof stable_set_token_expires as X.
  pose proof stable_http as H.
  pose proof stable_refl as Rf. pose proof stable_trans as Tr.
  split; [intros; apply keeps_exchange; assumption |].
  split; [apply keeps_refresh; assumption |].
  split; [apply keeps_ensure; assumption |].
  split; [intros; apply keeps_request; assumption |].
  split; [apply keeps_request; assumption |].
  split; [apply keeps_get_all_devices; assumption |].
  split; [apply keeps_get_thermostats; assumption |].
  split; [intros; apply keeps_request; assumption |].
  split; [intros; apply keeps_request; assumption |].
  split; [intros; apply keeps_set_temperature; assumption |].
  split; [intros; apply keeps_set_fan_mode; assumption |].
  intros; apply keeps_load_tokens; assumption.
Qed.

Lemma operations_keep_credentials_and_files_witness :
  stable (owner, home)
         (snd (fst (set_temperature "D1" "Heat" (JInt 68) JNull JNull
                                    owner home)),
          snd (set_temperature "D1" "Heat" (JInt 68) JNull JNull
                               owner home)).
Proof.
  exact (proj1 (proj2 (proj2 (proj2 (proj2 (proj2 (proj2 (proj2 (proj2
           (proj2 operations_keep_credentials_and_files)))))))))
           "D1" "Heat" (JInt 68) JNull JNull owner home
           (fst (fst (set_temperature "D1" "Heat" (JInt 68) JNull JNull
                                      owner home)))
           _ _ eq_refl).
Defined.

(** ** More on the token file *)



(** X16.  [load_tokens] reads only the keys [access_token],
    [refresh_token] and [expires]: two files that agree on these three give
    the same outcome and the same session, whatever else they hold.  In
    particular the [client_id] that [save_tokens] writes is not compared
    with the session's, so tokens saved by one client load into a session
    of another. *)
Theorem load_tokens_reads_three_keys f c w1 w2 d1 d2 :
  files w1 f = Doc (JObj d1) ->
  files w2 f = Doc (JObj d2) ->
  lookup "access_token" d1 = lookup "access_token" d2 ->
  lookup "refresh_token" d1 = lookup "refresh_token" d2 ->
  lookup "expires" d1 = lookup "expires" d2 ->
  fst (load_tokens f c w1) = fst (load_tokens f c w2).
Proof.
  intros F1 F2 A R X. rewrite !load_run, F1, F2.
  unfold dict_get, get_default. rewrite A, R, X. cbv zeta.
  destruct (truthy _); [destruct (py_fromisoformat _) |]; reflexivity.
Qed.

Lemma load_tokens_reads_three_keys_witness :
  fst (load_tokens "t.json" owner
         (world_with_file "t.json"
            (JObj [("access_token", JStr "a"); ("client_id", JStr "other")])))
  = fst (load_tokens "t.json" owner
           (world_with_file "t.json" (JObj [("access_token", JStr "a")]))).
Proof.
  exact (load_tokens_reads_three_keys "t.json" owner
           (world_with_file "t.json"
              (JObj [("access_token", JStr "a"); ("client_id", JStr "other")]))
           (world_with_file "t.json" (JObj [("access_token", JStr "a")]))
           [("access_token", JStr "a"); ("client_id", JStr "other")]
           [("access_token", JStr "a")]
           eq_refl eq_refl eq_refl eq_refl eq_refl).
Defined.

(** X17.  [load_tokens] reports success on any JSON object whose
    [expires] is missing, empty or a parsable timestamp, even one without
    an access token: the token is then [None], and the next operation is
    refused with "No valid access token available" without sending
    anything. *)
Theorem load_without_token_succeeds f c w d :
  files w f = Doc (JObj d) ->
  truthy (dict_get "access_token" d) = false ->
  truthy (dict_get "expires" d) = false \/
  (exists t, py_fromisoformat (dict_get "expires" d) = inr t) ->
  exists c',
    load_tokens f c w = (inr true, c', w) /\
    access_token c' = dict_get "access_token" d /\
    forall method ep data,
      _make_api_request method ep data c' w
      = (inr (Error NoValidToken), c', w).
Proof.
  intros F A X. rewrite load_run, F. cbv zeta.
  assert (K : forall t,
    exists c',
      (inr true,
       with_tokens c (dict_get "access_token" d) (dict_get "refresh_token" d)
                   t, w)
      = (@inr exn bool true, c', w) /\
      access_token c' = dict_get "access_token" d /\
      forall method ep data,
        _make_api_request method ep data c' w
        = (inr (Error NoValidToken), c', w)).
  { intros t. eexists. split; [reflexivity |]. split; [reflexivity |].
    intros. rewrite request_run, ensure_run. cbn [with_tokens access_token].
    rewrite A. reflexivity. }
  destruct (truthy (dict_get "expires" d)) eqn:T.
  - destruct X as [X | [t X]]; [discriminate X |]. rewrite X. apply K.
  - apply K.
Qed.

Lemma load_without_token_succeeds_witness :
  exists c',
    load_tokens "t.json" owner (world_with_file "t.json" (JObj []))
    = (inr true, c', world_with_file "t.json" (JObj [])) /\
    access_token c' = JNull /\
    forall method ep data,
      _make_api_request method ep data c'
        (world_with_file "t.json" (JObj []))
      = (inr (Error NoValidToken), c', world_with_file "t.json" (JObj [])).
Proof.
  exact (load_without_token_succeeds "t.json" owner
           (world_with_file "t.json" (JObj [])) [] eq_refl eq_refl
           (or_introl eq_refl)).
Defined.

(** ** Reading changes nothing at the service *)

(** A token request, or the GET of the locations. *)
Definition reads_locations (rq : request) : Prop :=
  is_token_request rq \/ is_api_request "GET" Locations None rq.

Lemma reads_locations_devices : sends reads_locations get_all_devices.
Proof.
  unfold get_all_devices. step; [apply sends_get_locations |].
  destruct (negb (get_success a)); repeat step.
Qed.

(** X18.  The four reading operations never send a POST, PUT or DELETE:
    whatever they return or raise, each request [get_locations],
    [get_all_devices] and [get_thermostats] add to the log is a token
    request or the GET, without body, of the locations endpoint, and each
    request [get_thermostat_status] adds is a token request or the GET,
    without body, of the endpoint of the device and location asked for. *)
Theorem reading_sends_only_gets :
  sends reads_locations get_locations /\
  sends reads_locations get_all_devices /\
  sends reads_locations get_thermostats /\
  (forall device_id location_id,
     sends (fun rq => is_token_request rq \/
                      is_api_request "GET" (Thermostat device_id location_id)
                                     None rq)
           (get_thermostat_status device_id location_id)) /\
  (forall rq ep,
     is_token_request rq \/ is_api_request "GET" ep None rq ->
     match rq with
     | TokenRequest _ _ _ => True
     | ApiRequest verb ep' _ _ _ body =>
         verb = "GET" /\ ep' = ep /\ body = None
     end).
Proof.
  split; [apply sends_get_locations |].
  split; [apply reads_locations_devices |].
  split; [| split].
  - unfold get_thermostats. step; [apply reads_locations_devices |].
    destruct (negb (get_success a)); repeat step.
  - intros device_id location_id. unfold get_thermostat_status.
    eapply sends_weaken; [| apply sends_request].
    intros rq [T | (verb & b & V & A)]; [left; exact T | right].
    inv V. exact A.
  - intros rq ep [T | (key & bearer & ->)].
    + destruct rq; [exact I | destruct T].
    + repeat split.
Qed.

Lemma reading_sends_only_gets_witness :
  exists added,
    sent (snd (get_thermostats owner home)) = (added ++ sent home)%list
    /\ Forall reads_locations added.
Proof.
  exact (proj1 (proj2 (proj2 reading_sends_only_gets)) owner home
           (fst (fst (get_thermostats owner home)))
           (snd (fst (get_thermostats owner home)))
           (snd (get_thermostats owner home)) eq_refl).
Defined.

(** ** The consent URL *)

Module UrlFacts.

Import Urllib.

Fixpoint count (x : ascii) (s : string) : nat :=
  match s with
  | EmptyString => O
  | String c s' => ((if Ascii.eqb c x then 1 else 0) + count x s')%nat
  end.

Lemma count_append x s t : count x (s ++ t) = (count x s + count x t)%nat.
Proof.
  induction s as [| c s IH]; [reflexivity |]. cbn. rewrite IH. lia.
Qed.

Lemma count_cons x c s :
  count x (String c s) = ((if Ascii.eqb c x then 1 else 0) + count x s)%nat.
Proof. reflexivity. Qed.

(** The characters that delimit a URL and its query. *)
Definition delimiter (x : ascii) : bool :=
  existsb (Ascii.eqb x) (list_ascii_of_string "&=?#/: ").

Lemma quote_char_has_no_delimiter c x :
  delimiter x = true -> count x (quote_char c) = O.
Proof.
  unfold delimiter. cbn [list_ascii_of_string existsb].
  rewrite !orb_true_iff, !Ascii.eqb_eq.
  intros [-> | [-> | [-> | [-> | [-> | [-> | [-> | F]]]]]]];
    try discriminate F;
    destruct c as [[] [] [] [] [] [] [] []]; reflexivity.
Qed.

Lemma quote_plus_has_no_delimiter s x :
  delimiter x = true -> count x (quote_plus s) = O.
Proof.
  intros D. induction s as [| c s IH]; [reflexivity |].
  cbn [quote_plus]. rewrite count_append, IH.
  rewrite (quote_char_has_no_delimiter c x D). reflexivity.
Qed.

(** Decoding, the inverse used to tell encoded texts apart. *)
Definition hex_value (c : ascii) : option nat :=
  let n := nat_of_ascii c in
  if (48 <=? n)%nat && (n <=? 57)%nat then Some (n - 48)%nat
  else if (65 <=? n)%nat && (n <=? 70)%nat then Some (n - 55)%nat
  else None.

Fixpoint unquote_plus (s : string) : option string :=
  match s with
  | EmptyString => Some EmptyString
  | String "%" (String h (String l rest)) =>
      match hex_value h, hex_value l, unquote_plus rest with
      | Some a, Some b, Some r =>
          Some (String (ascii_of_nat (16 * a + b)) r)
      | _, _, _ => None
      end
  | String "%" _ => None
  | String "+" rest => option_map (String " ") (unquote_plus rest)
  | String c rest => option_map (String c) (unquote_plus rest)
  end.

Lemma unquote_quote_char c t :
  unquote_plus (quote_char c ++ t) = option_map (String c) (unquote_plus t).
Proof.
  destruct c as [[] [] [] [] [] [] [] []];
    match goal with
    | |- context [quote_char ?c] =>
        let q := eval vm_compute in (quote_char c) in
        change (quote_char c) with q
    end;
    cbn [append unquote_plus];
    repeat match goal with
      | |- context [hex_value ?h] =>
          let v := eval vm_compute in (hex_value h) in
          change (hex_value h) with v
      end;
    cbv beta iota;
    destruct (unquote_plus t); reflexivity.
Qed.

Lemma unquote_quote s : unquote_plus (quote_plus s) = Some s.
Proof.
  induction s as [| c s IH]; [reflexivity |].
  cbn [quote_plus]. rewrite unquote_quote_char, IH. reflexivity.
Qed.

Lemma quote_plus_injective s t : quote_plus s = quote_plus t -> s = t.
Proof.
  intros H. apply (f_equal unquote_plus) in H.
  rewrite !unquote_quote in H. inv H. reflexivity.
Qed.

Lemma append_cancel_l a x y : a ++ x = a ++ y -> x = y.
Proof.
  induction a as [| c a IH]; [trivial |]. cbn. intros H. inv H. auto.
Qed.

(** Two texts free of [x] that are each followed by [x] end at the same
    place. *)
Lemma split_at x a1 a2 r1 r2 :
  count x a1 = O -> count x a2 = O ->
  a1 ++ String x r1 = a2 ++ String x r2 -> a1 = a2 /\ r1 = r2.
Proof.
  revert a2. induction a1 as [| c a1 IH]; intros [| c2 a2]; cbn.
  - intros _ _ H. inv H. split; reflexivity.
  - intros _ C H. inv H. rewrite Ascii.eqb_refl in C. discriminate C.
  - intros C _ H. inv H. rewrite Ascii.eqb_refl in C. discriminate C.
  - intros C1 C2 H. inv H.
    destruct (Ascii.eqb c2 x); [discriminate C1 |].
    destruct (IH a2 C1 C2 H2) as [-> ->]. split; reflexivity.
Qed.

(** The URL, spelled out. *)
Lemma authorization_url_text c :
  get_authorization_url c
  = "https://api.honeywell.com/oauth2/authorize?response_type=code&client_id="
    ++ quote_plus (client_id c)
    ++ String "&" ("redirect_uri=" ++ quote_plus (redirect_uri c)
                   ++ String "&" "scope=").
Proof.
  unfold get_authorization_url, auth_base_url, urlencode.
  change (quote_plus "response_type") with "response_type".
  change (quote_plus "code") with "code".
  change (quote_plus "client_id") with "client_id".
  change (quote_plus "redirect_uri") with "redirect_uri".
  change (quote_plus "scope") with "scope".
  change (quote_plus "") with "".
  cbn [append]. repeat f_equal.
Qed.

End UrlFacts.

(** X19. Whatever the client id and the redirect URI contain, the consent
    URL has one question mark, three ampersands and four equal signs, and
    no [#] and no space: the two values cannot add, cut or end a parameter.
    With the default redirect URI the URL is the one written out. *)
Theorem authorization_url_has_four_parameters :
  (forall c,
     UrlFacts.count "?" (get_authorization_url c) = 1%nat
     /\ UrlFacts.count "&" (get_authorization_url c) = 3%nat
     /\ UrlFacts.count "=" (get_authorization_url c) = 4%nat
     /\ UrlFacts.count "#" (get_authorization_url c) = 0%nat
     /\ UrlFacts.count " " (get_authorization_url c) = 0%nat)
  /\ get_authorization_url (init "my id" "secret" None)
     = "https://api.honeywell.com/oauth2/authorize?response_type=code&client_id=my+id&redirect_uri=http%3A%2F%2Flocalhost%3A8080%2Fcallback&scope=".
Proof.
  split; [| reflexivity].
  intros c. rewrite UrlFacts.authorization_url_text.
  repeat split;
    rewrite UrlFacts.count_append, UrlFacts.count_append,
      (UrlFacts.count_cons _ "&"), UrlFacts.count_append,
      UrlFacts.count_append,
      !UrlFacts.quote_plus_has_no_delimiter by reflexivity;
    reflexivity.
Qed.

(** X20. Two controllers with the same consent URL have the same client id
    and the same redirect URI: the encoding loses nothing of either. *)
Theorem authorization_url_determines_client c1 c2 :
  get_authorization_url c1 = get_authorization_url c2 ->
  client_id c1 = client_id c2 /\ redirect_uri c1 = redirect_uri c2.
Proof.
  rewrite !UrlFacts.authorization_url_text. intros H.
  apply UrlFacts.append_cancel_l in H.
  apply UrlFacts.split_at in H;
    try (apply UrlFacts.quote_plus_has_no_delimiter; reflexivity).
  destruct H as [Hid H]. split.
  { apply UrlFacts.quote_plus_injective, Hid. }
  apply UrlFacts.append_cancel_l in H.
  apply UrlFacts.split_at in H;
    try (apply UrlFacts.quote_plus_has_no_delimiter; reflexivity).
  apply UrlFacts.quote_plus_injective, (proj1 H).
Qed.

Lemma authorization_url_determines_client_witness :
  get_authorization_url (init "a&b" "one" None)
  = get_authorization_url
      (mkController "a&b" "two" "http://localhost:8080/callback"
         (JStr "token") JNull None)
  /\ redirect_uri (init "a&b" "one" None) = "http://localhost:8080/callback".
Proof.
  split; [reflexivity |].
  exact (proj2 (authorization_url_determines_client
                  (init "a&b" "one" None)
                  (mkController "a&b" "two" "http://localhost:8080/callback"
                     (JStr "token") JNull None) eq_refl)).
Defined.
